(** * caver-js: the ChainDataAnchoring transaction

    A shallow embedding of
    [packages/caver-transaction/src/transactionTypes/chainDataAnchoring/chainDataAnchoring.js]
    together with the collaborators it calls (the RLP codec and [Bytes.fromNat]
    of eth-lib, the helpers of caver-utils, the [AbstractTransaction] base
    class), followed by the properties of the transaction envelope.

    JavaScript strings are [string]; a JavaScript value that may be undefined,
    a number, a string or an array is a [value]; a function that may throw
    returns a [result]. *)

From Stdlib Require Import Bool Arith NArith Lia List Ascii String HexString DecimalString.
Import ListNotations.

Local Open Scope list_scope.
Local Open Scope string_scope.

Set Warnings "-register-all".

(** ** JavaScript values and exceptions *)

Inductive value : Type :=
| Undefined
| Num (n : N)
| Str (s : string)
| Arr (l : list value).

(** The errors are named as the taxonomy of the specification names them; the
    code throws a plain [Error] carrying a message at each of these sites.
    [TypeError] is the runtime error of JavaScript (a property read on
    [undefined], a call of something that is not a function, a destructuring
    of something that is not iterable). *)
Inductive error : Type :=
| UnsupportedTypeTagError
| ConflictingFieldError
| InvalidFieldFormatError (field : string)
| MissingFieldError (field : string)
| InvalidSignatureFormatError
| TypeError
| RpcError (reason : string)
| RlpEnd          (* the [throw ""] of the RLP decoder, caught by [RLP.decode] *)
| OutOfFuel       (* the bound of a recursion was reached; [RLP.decode] never is *)
| OutsideModel.   (* the embedding does not follow JavaScript here (NaN, fractions) *)

Inductive result (A : Type) : Type :=
| Ok (a : A)
| Throw (e : error).

Arguments Ok {A} a.
Arguments Throw {A} e.

Definition bind {A B : Type} (r : result A) (k : A -> result B) : result B :=
  match r with
  | Ok a => k a
  | Throw e => Throw e
  end.

Notation "x <- r ;; k" := (bind r (fun x => k))
  (at level 61, r at next level, right associativity).
Notation "' p <- r ;; k" := (bind r (fun x => let 'p := x in k))
  (at level 61, p pattern, r at next level, right associativity).
Notation "r ;;; k" := (bind r (fun _ => k))
  (at level 61, right associativity).

(** ** String primitives of JavaScript *)

(** [s.slice(n)] *)
Fixpoint sliceFrom (n : nat) (s : string) : string :=
  match n, s with
  | 0, _ => s
  | S n', String _ s' => sliceFrom n' s'
  | S _, EmptyString => EmptyString
  end.

(** the first [n] characters, [s.slice(0, n)] *)
Fixpoint takeStr (n : nat) (s : string) : string :=
  match n, s with
  | 0, _ => EmptyString
  | S n', String c s' => String c (takeStr n' s')
  | S _, EmptyString => EmptyString
  end.

(** [s.slice(i, j)] for indices that are natural numbers *)
Definition slice (i j : nat) (s : string) : string :=
  takeStr (j - i) (sliceFrom i s).

(** [s.startsWith(p)] *)
Definition startsWith (s p : string) : bool := prefix p s.

Definition lowerChar (c : ascii) : ascii :=
  let n := nat_of_ascii c in
  if (65 <=? n)%nat && (n <=? 90)%nat then ascii_of_nat (n + 32) else c.

(** [s.toLowerCase()] *)
Fixpoint toLowerCase (s : string) : string :=
  match s with
  | EmptyString => EmptyString
  | String c s' => String (lowerChar c) (toLowerCase s')
  end.

Definition isHexDigit (c : ascii) : bool :=
  match HexString.ascii_to_digit c with Some _ => true | None => false end.

Fixpoint allHex (s : string) : bool :=
  match s with
  | EmptyString => true
  | String c s' => isHexDigit c && allHex s'
  end.

Definition isDecDigit (c : ascii) : bool :=
  let n := nat_of_ascii c in (48 <=? n)%nat && (n <=? 57)%nat.

Fixpoint allDec (s : string) : bool :=
  match s with
  | EmptyString => true
  | String c s' => isDecDigit c && allDec s'
  end.

(** [n.toString(16)] *)
Definition toString16 (n : N) : string :=
  match n with
  | N0 => "0"
  | Npos p => HexString.Raw.of_pos p ""
  end.

(** [parseInt(s, 16)] on a string of hexadecimal digits; [None] is NaN. *)
Definition parseInt16 (s : string) : option N :=
  match s with
  | EmptyString => None
  | _ => if allHex s then Some (HexString.Raw.to_N s 0%N) else None
  end.

(** ** eth-lib: [Bytes.fromNat] *)

Module Bytes.

(** Modelled from the spec: eth-lib is a collaborator that is not among the
    sources.  [fromNat] writes an integer as a byte string of minimal length:
    no leading zero byte, the empty string for zero; as eth-lib has it,
    [bn === "0x0" ? "0x" : bn.length % 2 === 0 ? bn : "0x0" + bn.slice(2)]. *)
Definition fromNat (bn : string) : string :=
  if (bn =? "0x0") then "0x"
  else if Nat.even (String.length bn) then bn
  else "0x0" ++ sliceFrom 2 bn.

End Bytes.

(** ** eth-lib: the RLP codec

    Modelled from the spec: the RLP codec is a collaborator that is not among
    the sources; it has the RLP semantics of Ethereum, length-prefixed byte
    strings and lists.  It is written here the way eth-lib writes it, on
    hexadecimal strings, with eth-lib's names.  eth-lib halves lengths with
    the floating point division of JavaScript: on a string with an odd number
    of digits the embedding stops with [OutsideModel]. *)

Module RLP.

Definition padEven (str : string) : string :=
  if Nat.even (String.length str) then str else "0" ++ str.

Definition uint (num : N) : string := padEven (toString16 num).

(** [length(len, add)]: the header of an item of [len] bytes *)
Definition length_ (len : nat) (add : N) : string :=
  if (len <? 56)%nat then uint (add + N.of_nat len)
  else uint (add + N.of_nat (String.length (uint (N.of_nat len)) / 2) + 55)
       ++ uint (N.of_nat len).

Fixpoint dataTree (tree : value) : result string :=
  match tree with
  | Str s =>
      let hex := sliceFrom 2 s in
      if Nat.odd (String.length hex) then Throw OutsideModel else
      let pre := if negb (String.length hex =? 2)%nat || ("80" <=? hex)
                 then length_ (String.length hex / 2) 128 else "" in
      Ok (pre ++ hex)
  | Arr l =>
      hex <- (fix join (l : list value) : result string :=
                match l with
                | [] => Ok ""
                | t :: l' => h <- dataTree t ;; r <- join l' ;; Ok (h ++ r)
                end) l ;;
      Ok (length_ (String.length hex / 2) 192 ++ hex)
  | Undefined | Num _ => Throw TypeError
  end.

Definition encode (tree : value) : result string :=
  hex <- dataTree tree ;; Ok ("0x" ++ hex).

(** [parseLength]: reads the header at [i]; gives the length and the new [i].
    Where the JavaScript code would compute with NaN (a header that is not
    hexadecimal, or cut short) the embedding stops with [OutsideModel]. *)
Definition parseLength (hex : string) (i : nat) : result (nat * nat) :=
  match parseInt16 (slice i (i + 2) hex) with
  | None => Throw OutsideModel
  | Some h =>
      let len := N.to_nat (h mod 64) in
      if (len <? 56)%nat then Ok (len, i + 2)
      else match parseInt16 (slice (i + 2) (i + 2 + (len - 55) * 2) hex) with
           | None => Throw OutsideModel
           | Some n => Ok (N.to_nat n, i + 2 + (len - 55) * 2)
           end
  end.

Definition parseHex (hex : string) (i : nat) : result (value * nat) :=
  '(len, i1) <- parseLength hex i ;;
  Ok (Str ("0x" ++ slice i1 (i1 + len * 2) hex), i1 + len * 2).

(** [parseTree] and the [while (i < lim)] loop of [parseList]; every call
    moves [i] forward, so the length of the input bounds the recursion. *)
Fixpoint parseTree (fuel : nat) (hex : string) (i : nat) : result (value * nat) :=
  match fuel with
  | 0 => Throw OutOfFuel
  | S fuel' =>
      if (String.length hex <=? i)%nat then Throw RlpEnd
      else
        let head := slice i (i + 2) hex in
        if (head <? "80") then Ok (Str ("0x" ++ head), i + 2)
        else if (head <? "c0") then parseHex hex i
        else
          '(len, i1) <- parseLength hex i ;;
          '(list, i2) <- parseItems fuel' hex (len * 2 + i1) i1 ;;
          Ok (Arr list, i2)
  end
with parseItems (fuel : nat) (hex : string) (lim i : nat) : result (list value * nat) :=
  match fuel with
  | 0 => Throw OutOfFuel
  | S fuel' =>
      if (i <? lim)%nat then
        '(t, i1) <- parseTree fuel' hex i ;;
        '(list, i2) <- parseItems fuel' hex lim i1 ;;
        Ok (t :: list, i2)
      else Ok ([], i)
  end.

(** [decode]: [i] starts after the "0x"; the [try ... catch] turns the
    exception of [parseTree] at the end of the input into the empty list. *)
Definition decode (hex : string) : result value :=
  match parseTree (S (String.length hex)) hex 2 with
  | Ok (t, _) => Ok t
  | Throw RlpEnd => Ok (Arr [])
  | Throw e => Throw e
  end.

End RLP.

(** ** caver-utils

    Modelled from the spec: caver-utils is not among the sources; these are
    its field codec helpers, which canonicalize and validate single fields. *)

Module utils.

(** Modelled from the spec: caver-utils is not among the sources.
    [addHexPrefix] gives the string its "0x" prefix when it has none. *)
Definition addHexPrefix (str : string) : string :=
  if startsWith str "0x" || startsWith str "0X"
  then "0x" ++ sliceFrom 2 str
  else "0x" ++ str.

(** Modelled from the spec: the loop of [trimLeadingZero],
    [while (hex && hex.startsWith('0x0')) hex = `0x${hex.slice(3)}`]; each
    turn makes the string shorter, so its length bounds the turns. *)
Fixpoint trimLeadingZero_loop (fuel : nat) (hex : string) : string :=
  match fuel with
  | 0 => hex
  | S fuel' =>
      if startsWith hex "0x0"
      then trimLeadingZero_loop fuel' ("0x" ++ sliceFrom 3 hex)
      else hex
  end.

(** Modelled from the spec: caver-utils is not among the sources.
    [trimLeadingZero] normalizes an integer decoded from RLP: the zeros
    leading its digits are stripped.  A falsy value (undefined, the empty
    string, 0) is returned as it is; a number or an array has no
    [startsWith]. *)
Definition trimLeadingZero (hex : value) : result value :=
  match hex with
  | Undefined => Ok Undefined
  | Str s => Ok (Str (trimLeadingZero_loop (String.length s) s))
  | Num 0 => Ok (Num 0)
  | Num _ | Arr _ => Throw TypeError
  end.

(** Modelled from the spec: the digits without the zeros that lead them. *)
Fixpoint stripZeros (digits : string) : string :=
  match digits with
  | String "0" rest => stripZeros rest
  | _ => digits
  end.

(** Modelled from the spec: the digits of a hexadecimal numeral as a big
    number prints them, in lower case and without leading zero. *)
Definition canonDigits (digits : string) : string :=
  match stripZeros (toLowerCase digits) with
  | EmptyString => "0"
  | d => d
  end.

(** Modelled from the spec: a hexadecimal numeral with its "0x". *)
Definition isHexStrict (s : string) : bool :=
  (startsWith s "0x" || startsWith s "0X") && allHex (sliceFrom 2 s).

(** Modelled from the spec: the number a string of decimal digits denotes. *)
Definition decimalToN (s : string) : N :=
  match NilEmpty.uint_of_string s with
  | Some u => N.of_uint u
  | None => 0%N
  end.

(** Modelled from the spec: caver-utils is not among the sources.
    [numberToHex] canonicalizes an integer to the string "0x" followed by its
    hexadecimal digits without leading zero ("0x0" for zero).  It takes a
    number, a 0x-prefixed hexadecimal string or a string of decimal digits,
    and leaves undefined as it is; the other spellings JavaScript coerces to
    a number are not modelled and are rejected. *)
Definition numberToHex (value : value) : result (option string) :=
  match value with
  | Undefined => Ok None
  | Num n => Ok (Some (HexString.of_N n))
  | Str s =>
      if isHexStrict s then Ok (Some ("0x" ++ canonDigits (sliceFrom 2 s)))
      else if negb (s =? "") && allDec s then Ok (Some (HexString.of_N (decimalToN s)))
      else Throw (InvalidFieldFormatError "number")
  | Arr _ => Throw (InvalidFieldFormatError "number")
  end.

(** Modelled from the spec: caver-utils is not among the sources.
    [isHex] is the hex validation: a string of hexadecimal digits with an
    optional "0x" or "-0x" in front, or a number. *)
Definition isHex (hex : value) : bool :=
  match hex with
  | Str s =>
      if startsWith s "0x" || startsWith s "0X" then allHex (sliceFrom 2 s)
      else if startsWith s "-0x" || startsWith s "-0X" then allHex (sliceFrom 3 s)
      else allHex s
  | Num _ => true
  | Undefined | Arr _ => false
  end.

(** Modelled from the spec: the address check of caver-utils, without the
    checksum of mixed-case addresses: "0x" and the 40 digits of 20 bytes. *)
Definition isAddress (address : string) : bool :=
  startsWith address "0x" && (String.length address =? 42)%nat
  && allHex (sliceFrom 2 address).

End utils.

(** [!v] is false on these *)
Definition truthy (v : value) : bool :=
  match v with
  | Undefined => false
  | Num n => negb (n =? 0)%N
  | Str s => negb (s =? "")
  | Arr _ => true
  end.

(** [a || b] on values *)
Definition js_or (a b : value) : value := if truthy a then a else b.

(** The destructuring [const [x0, x1, ...] = v] reads the elements of an
    array, the characters of a string; a missing element is undefined. *)
Definition iterate (v : value) : result (list value) :=
  match v with
  | Arr l => Ok l
  | Str s => Ok (map (fun c => Str (String c "")) (list_ascii_of_string s))
  | Undefined | Num _ => Throw TypeError
  end.

Definition element (l : list value) (i : nat) : value := nth i l Undefined.

(** ** transactionHelper *)

(** Modelled from the spec: transactionHelper is not among the sources.  The
    type tag of the variant is one byte written in hexadecimal behind "0x";
    [_decode] detaches it with [slice(4)].  Klaytn gives chain data anchoring
    the tag 0x48. *)
Definition TxTypeChainDataAnchoring : string := "0x48".

(** Modelled from the spec: [isNot] of transactionHelper, which is not among
    the sources: the field is unset (undefined or null). *)
Definition isNot (v : option string) : bool :=
  match v with None => true | Some _ => false end.

(** ** Signatures *)

(** Modelled from the spec: SignatureData is not among the sources.  A
    signature is the triple (recovery id, r, s); [encode] lists the three. *)
Record SignatureData : Type := mkSig { sig_v : string; sig_r : string; sig_s : string }.

(** Modelled from the spec: [sig.encode()], the three strings of the triple. *)
Definition SignatureData_encode (sig : SignatureData) : value :=
  Arr [Str (sig_v sig); Str (sig_r sig); Str (sig_s sig)].

(** Modelled from the spec: a triple read from a decoded list; a malformed
    shape is an InvalidSignatureFormatError. *)
Definition SignatureData_of (tree : value) : result SignatureData :=
  match tree with
  | Arr [Str v; Str r; Str s] => Ok (mkSig v r s)
  | _ => Throw InvalidSignatureFormatError
  end.

Fixpoint SignatureData_list (l : list value) : result (list SignatureData) :=
  match l with
  | [] => Ok []
  | t :: l' =>
      sig <- SignatureData_of t ;;
      sigs <- SignatureData_list l' ;;
      Ok (sig :: sigs)
  end.

(** Modelled from the spec: the signatures of a field object, normalized to
    the ordered list: none, a single triple, or a list of triples. *)
Definition refineSignatures (sigs : value) : result (list SignatureData) :=
  match sigs with
  | Undefined => Ok []
  | Arr (Str v :: rest) => sig <- SignatureData_of (Arr (Str v :: rest)) ;; Ok [sig]
  | Arr l => SignatureData_list l
  | _ => Throw InvalidSignatureFormatError
  end.

(** ** The field object and the transaction *)

(** [createTxObj]: the fields a caller may give; an absent one is [Undefined]. *)
Record CreateTransactionObject : Type := mkObj {
  o_from : value;
  o_nonce : value;
  o_gas : value;
  o_gasPrice : value;
  o_chainId : value;
  o_input : value;
  o_data : value;
  o_signatures : value
}.

(** The transaction object: the private fields behind the setters.  The
    setters store strings; a field that was never assigned is [None]. *)
Record ChainDataAnchoring : Type := mkTx {
  _from : option string;
  _nonce : option string;
  _gas : option string;
  _gasPrice : option string;
  _chainId : option string;
  _input : option string;
  _signatures : list SignatureData
}.

(** Modelled from the spec: the RPC collaborator behind [getChainId],
    [suggestedGasPrice] and [getNonce] of the envelope, which are not among
    the sources: what each call resolves to, or how it is rejected. *)
Record KlaytnCall : Type := mkRpc {
  getChainId : result value;
  getGasPrice : result value;
  getTransactionCount : option string -> result value
}.

Inductive RpcCall : Type :=
| CallGetChainId
| CallGetGasPrice
| CallGetTransactionCount (address : option string).

Definition of_field (f : option string) : value :=
  match f with Some s => Str s | None => Undefined end.

(** [Bytes.fromNat(this.x)]: a property of [undefined] cannot be read *)
Definition fromNat_field (f : option string) : result value :=
  match f with
  | Some bn => Ok (Str (Bytes.fromNat bn))
  | None => Throw TypeError
  end.

(** [this.from.toLowerCase()] *)
Definition toLowerCase_field (f : option string) : result value :=
  match f with
  | Some s => Ok (Str (toLowerCase s))
  | None => Throw TypeError
  end.

(** ** AbstractTransaction *)

Module AbstractTransaction.

(** Modelled from the spec: abstractTransaction.js is not among the sources.
    The sender address is kept as a lower-case hex string of 20 bytes and an
    invalid one is rejected when it is assigned. *)
Definition set_from (address : value) : result (option string) :=
  match address with
  | Undefined => Ok None
  | Str a =>
      if utils.isAddress (toLowerCase a) then Ok (Some (toLowerCase a))
      else Throw (InvalidFieldFormatError "from")
  | Num _ | Arr _ => Throw (InvalidFieldFormatError "from")
  end.

(** Modelled from the spec: abstractTransaction.js is not among the sources.
    [nonce], [gas] and [chainId] have the representation of [gasPrice], whose
    setter is in the sources: they are stored through [numberToHex]. *)
Definition set_number (n : value) : result (option string) := utils.numberToHex n.

(** Modelled from the spec: abstractTransaction.js is not among the sources.
    The constructor of the envelope validates and normalizes the common
    fields; each of them is optional at construction time and the signature
    list is empty until signed.  [gasPrice] and [input] are left to the
    variant. *)
Definition new (createTxObj : CreateTransactionObject) : result ChainDataAnchoring :=
  from <- set_from (o_from createTxObj) ;;
  nonce <- set_number (o_nonce createTxObj) ;;
  gas <- set_number (o_gas createTxObj) ;;
  chainId <- set_number (o_chainId createTxObj) ;;
  signatures <- refineSignatures (o_signatures createTxObj) ;;
  Ok (mkTx from nonce gas None chainId None signatures).

(** Modelled from the spec: abstractTransaction.js is not among the sources.
    [validateRequiredFields] fails with a MissingFieldError naming the first
    unset field among nonce, gas, gasPrice, chainId. *)
Definition validateOptionalValues (tx : ChainDataAnchoring) : result unit :=
  if isNot (_nonce tx) then Throw (MissingFieldError "nonce")
  else if isNot (_gas tx) then Throw (MissingFieldError "gas")
  else if isNot (_gasPrice tx) then Throw (MissingFieldError "gasPrice")
  else if isNot (_chainId tx) then Throw (MissingFieldError "chainId")
  else Ok tt.

(** Modelled from the spec: abstractTransaction.js is not among the sources
    (its declaration is: [getRLPEncodingForSignature(): string]).  The string
    that is hashed and signed for the sender is
    typeTag ++ RLP([nonce, gasPrice, gas, payload, chainId, 0, 0]); the
    required fields are validated before any encoding, the payload is what
    the variant's [getCommonRLPEncodingForSignature] supplies, a string, and
    each placeholder is the integer zero, the empty byte string of RLP. *)
Definition getRLPEncodingForSignature (typeTag : string)
    (getCommonRLPEncodingForSignature : ChainDataAnchoring -> result string)
    (this : ChainDataAnchoring) : result string :=
  validateOptionalValues this ;;;
  payload <- getCommonRLPEncodingForSignature this ;;
  nonce <- fromNat_field (_nonce this) ;;
  gasPrice <- fromNat_field (_gasPrice this) ;;
  gas <- fromNat_field (_gas this) ;;
  chainId <- fromNat_field (_chainId this) ;;
  encoded <- RLP.encode (Arr [nonce; gasPrice; gas; Str payload; chainId; Str "0x"; Str "0x"]) ;;
  Ok (typeTag ++ sliceFrom 2 encoded).

End AbstractTransaction.

(** ** chainDataAnchoring.js *)

(** The argument of the constructor: an RLP-encoded string or a field object. *)
Inductive CreateArg : Type :=
| FromString (rlpEncoded : string)
| FromObject (createTxObj : CreateTransactionObject).

(** What [fillTransaction] leaves behind: the RPC calls it made, the object as
    it is afterwards, and the rejection if there was one. *)
Record FillOutcome : Type := mkFill {
  fill_calls : list RpcCall;
  fill_tx : ChainDataAnchoring;
  fill_error : option error
}.

Definition with_chainId (tx : ChainDataAnchoring) (c : option string) : ChainDataAnchoring :=
  mkTx (_from tx) (_nonce tx) (_gas tx) (_gasPrice tx) c (_input tx) (_signatures tx).

Definition with_nonce (tx : ChainDataAnchoring) (n : option string) : ChainDataAnchoring :=
  mkTx (_from tx) n (_gas tx) (_gasPrice tx) (_chainId tx) (_input tx) (_signatures tx).

Definition with_gasPrice (tx : ChainDataAnchoring) (g : option string) : ChainDataAnchoring :=
  mkTx (_from tx) (_nonce tx) (_gas tx) g (_chainId tx) (_input tx) (_signatures tx).

Definition with_input (tx : ChainDataAnchoring) (i : option string) : ChainDataAnchoring :=
  mkTx (_from tx) (_nonce tx) (_gas tx) (_gasPrice tx) (_chainId tx) i (_signatures tx).

Section Class.

(** [utils.toHex], the conversion the [input] setter stores its argument
    through, is a collaborator that is not among the sources: the class is
    embedded over any such conversion. *)
Variable toHex : value -> string.

(** [_decode], lines 26-41 *)
Definition _decode (rlpEncoded : string) : result CreateTransactionObject :=
  let rlpEncoded := utils.addHexPrefix rlpEncoded in
  if negb (startsWith rlpEncoded TxTypeChainDataAnchoring)
  then Throw UnsupportedTypeTagError
  else
    let typeDettached := "0x" ++ sliceFrom 4 rlpEncoded in
    decoded <- RLP.decode typeDettached ;;
    fields <- iterate decoded ;;
    nonce <- utils.trimLeadingZero (element fields 0) ;;
    gasPrice <- utils.trimLeadingZero (element fields 1) ;;
    gas <- utils.trimLeadingZero (element fields 2) ;;
    Ok {| o_from := element fields 3;
          o_nonce := nonce;
          o_gas := gas;
          o_gasPrice := gasPrice;
          o_chainId := Undefined;
          o_input := element fields 4;
          o_data := Undefined;
          o_signatures := element fields 5 |}.

(** [set gasPrice(g)], lines 101-103 *)
Definition set_gasPrice (g : value) (this : ChainDataAnchoring) : result ChainDataAnchoring :=
  p <- utils.numberToHex g ;; Ok (with_gasPrice this p).

(** [set input(input)], lines 112-115 *)
Definition set_input (input : value) (this : ChainDataAnchoring) : result ChainDataAnchoring :=
  if negb (truthy input) || negb (utils.isHex input)
  then Throw (InvalidFieldFormatError "input")
  else Ok (with_input this (Some (toHex input))).

(** the constructor, lines 83-92 *)
Definition new (arg : CreateArg) : result ChainDataAnchoring :=
  createTxObj <- match arg with
                 | FromString rlpEncoded => _decode rlpEncoded
                 | FromObject o => Ok o
                 end ;;
  this <- AbstractTransaction.new createTxObj ;;
  if truthy (o_input createTxObj) && truthy (o_data createTxObj)
  then Throw ConflictingFieldError
  else
    this <- set_input (js_or (o_input createTxObj) (o_data createTxObj)) this ;;
    match o_gasPrice createTxObj with
    | Undefined => Ok this
    | g => set_gasPrice g this
    end.

(** [static create], lines 60-62 *)
Definition create (arg : CreateArg) : result ChainDataAnchoring := new arg.

(** [static decode], lines 71-73 *)
Definition decode (rlpEncoded : string) : result ChainDataAnchoring :=
  createTxObj <- _decode rlpEncoded ;; new (FromObject createTxObj).

(** [validateOptionalValues], lines 192-196 *)
Definition validateOptionalValues (this : ChainDataAnchoring) : result unit :=
  AbstractTransaction.validateOptionalValues this ;;;
  if isNot (_gasPrice this) then Throw (MissingFieldError "gasPrice") else Ok tt.

(** [getRLPEncoding], lines 125-140 *)
Definition getRLPEncoding (this : ChainDataAnchoring) : result string :=
  validateOptionalValues this ;;;
  let signatures := map SignatureData_encode (_signatures this) in
  nonce <- fromNat_field (_nonce this) ;;
  gasPrice <- fromNat_field (_gasPrice this) ;;
  gas <- fromNat_field (_gas this) ;;
  from <- toLowerCase_field (_from this) ;;
  encoded <- RLP.encode (Arr [nonce; gasPrice; gas; from; of_field (_input this); Arr signatures]) ;;
  Ok (TxTypeChainDataAnchoring ++ sliceFrom 2 encoded).

(** [getCommonRLPEncodingForSignature], lines 152-163 *)
Definition getCommonRLPEncodingForSignature (this : ChainDataAnchoring) : result string :=
  validateOptionalValues this ;;;
  nonce <- fromNat_field (_nonce this) ;;
  gasPrice <- fromNat_field (_gasPrice this) ;;
  gas <- fromNat_field (_gas this) ;;
  from <- toLowerCase_field (_from this) ;;
  RLP.encode (Arr [Str TxTypeChainDataAnchoring; nonce; gasPrice; gas; from; of_field (_input this)]).

(** [getRLPEncodingForSignature], inherited from the envelope, which calls
    the method above for the payload *)
Definition getRLPEncodingForSignature (this : ChainDataAnchoring) : result string :=
  AbstractTransaction.getRLPEncodingForSignature TxTypeChainDataAnchoring
    getCommonRLPEncodingForSignature this.

(** One element of the array given to [Promise.all]: the RPC is asked only
    when the field [isNot]; otherwise the element is the field itself. *)
Definition resolve (current : option string) (call : RpcCall) (answer : result value)
  : list RpcCall * result value :=
  if isNot current then ([call], answer) else ([], Ok (of_field current)).

(** The three assignments that end [fillTransaction], lines 181-183; each
    goes through its setter, and a setter that throws leaves the object as
    the assignments before it made it. *)
Definition assignResolved (calls : list RpcCall) (this : ChainDataAnchoring)
    (chainId gasPrice nonce : value) : FillOutcome :=
  match AbstractTransaction.set_number chainId with
  | Throw e => mkFill calls this (Some e)
  | Ok c =>
      let this1 := with_chainId this c in
      match set_gasPrice gasPrice this1 with
      | Throw e => mkFill calls this1 (Some e)
      | Ok this2 =>
          match AbstractTransaction.set_number nonce with
          | Throw e => mkFill calls this2 (Some e)
          | Ok n => mkFill calls (with_nonce this2 n) None
          end
      end
  end.

(** [fillTransaction], lines 174-184.  The three elements of the array are
    evaluated in order, [await Promise.all] rejects when one of them is
    rejected, and the results are assigned. *)
Definition fillTransaction (klaytnCall : KlaytnCall) (this : ChainDataAnchoring) : FillOutcome :=
  let '(c1, r1) := resolve (_chainId this) CallGetChainId (getChainId klaytnCall) in
  let '(c2, r2) := resolve (_gasPrice this) CallGetGasPrice (getGasPrice klaytnCall) in
  let '(c3, r3) := resolve (_nonce this) (CallGetTransactionCount (_from this))
                           (getTransactionCount klaytnCall (_from this)) in
  let calls := (c1 ++ c2 ++ c3)%list in
  match r1, r2, r3 with
  | Ok chainId, Ok gasPrice, Ok nonce => assignResolved calls this chainId gasPrice nonce
  | Throw e, _, _ => mkFill calls this (Some e)
  | _, Throw e, _ => mkFill calls this (Some e)
  | _, _, Throw e => mkFill calls this (Some e)
  end.

End Class.

(** Modelled from the spec: [utils.toHex] is not among the sources.  One
    conversion for the [input] setter: a string with "0x" or "-0x" in front
    is kept as it is, digits without prefix get the prefix, a number is
    written in hexadecimal. *)
Definition toHex_sample (value : value) : string :=
  match value with
  | Str s =>
      if startsWith s "0x" || startsWith s "0X" then s
      else if startsWith s "-0x" || startsWith s "-0X" then s
      else "0x" ++ s
  | Num n => HexString.of_N n
  | Undefined | Arr _ => "0x"
  end.

(** The contract of [utils.toHex] the [input] setter relies on: a valid hex
    value is converted to a valid hex string. *)
Definition toHexContract (toHex : value -> string) : Prop :=
  forall v : value, utils.isHex v = true -> utils.isHex (Str (toHex v)) = true.

(** a field object with the common fields set *)
Definition obj_sample (input data : value) : CreateTransactionObject :=
  {| o_from := Str "0xa94f5374fce5edbc8e2a8697c15331677e6ebf0b";
     o_nonce := Str "0x4d2"; o_gas := Str "0xf4240";
     o_gasPrice := Str "0x19"; o_chainId := Str "0x1";
     o_input := input; o_data := data; o_signatures := Undefined |}.

(** ** Auxiliary definitions of the proofs *)

(** what the decoder sees of a header byte [b]: two characters, below "80"
    for a single byte, below "c0" for a string, a list otherwise *)
Definition byte_head_ok (b : nat) : bool :=
  let h := RLP.uint (N.of_nat b) in
  (String.length h =? 2)%nat
  && Bool.eqb (h <? "80") (b <? 128)%nat
  && Bool.eqb (h <? "c0") (b <? 192)%nat.

(** The trees the codec is specified on: nested lists of byte strings, each
    string written with its "0x". *)
Fixpoint byteTree (tree : value) : bool :=
  match tree with
  | Str s => startsWith s "0x"
  | Arr l => forallb byteTree l
  | Undefined | Num _ => false
  end.

(** the depth of the recursion of [RLP.parseTree] on the encoding of a tree *)
Fixpoint cost (tree : value) : nat :=
  match tree with
  | Arr l =>
      S ((fix items (l : list value) : nat :=
            match l with
            | [] => 1
            | t :: l' => S (Nat.max (cost t) (items l'))
            end) l)
  | _ => 1
  end.

Definition costItems (l : list value) : nat :=
  (fix items (l : list value) : nat :=
     match l with
     | [] => 1
     | t :: l' => S (Nat.max (cost t) (items l'))
     end) l.

(** [tree.map(dataTree).join("")] *)
Definition joinTree (l : list value) : result string :=
  (fix join (l : list value) : result string :=
     match l with
     | [] => Ok ""
     | t :: l' => h <- RLP.dataTree t ;; r <- join l' ;; Ok (h ++ r)
     end) l.

(** a byte string: "0x" and an even number of digits *)
Definition isByteString (s : string) : bool :=
  startsWith s "0x" && Nat.even (String.length s).

(** a tree of byte strings *)
Fixpoint evenTree (tree : value) : bool :=
  match tree with
  | Str s => isByteString s
  | Arr l => forallb evenTree l
  | Undefined | Num _ => false
  end.

(** The stored form of an integer: "0x0", or "0x" and lower-case digits that
    do not start with a zero. *)
Definition isQuantity (s : string) : bool :=
  startsWith s "0x"
  && (let d := sliceFrom 2 s in
      (d =? "0")
      || (allHex d && negb (d =? "") && negb (startsWith d "0") && (toLowerCase d =? d))).

Definition quantityField (f : option string) : bool :=
  match f with
  | None => true
  | Some q => isQuantity q
  end.

(** The invariant of the setters: an integer field that is set holds the
    stored form of an integer. *)
Definition storedOk (tx : ChainDataAnchoring) : bool :=
  quantityField (_nonce tx) && quantityField (_gas tx)
  && quantityField (_gasPrice tx) && quantityField (_chainId tx).

Definition signatureOk (sig : SignatureData) : bool :=
  isByteString (sig_v sig) && isByteString (sig_r sig) && isByteString (sig_s sig).

(** A validly constructed, fully-filled transaction: the integer fields are
    set and stored as integers, the sender is a lower-case address, the input
    is a hex byte string stored as the setter stores it (converting it again
    changes nothing), and each signature is a triple of byte strings. *)
Definition validTx (toHex : value -> string) (tx : ChainDataAnchoring) : bool :=
  match _nonce tx, _gas tx, _gasPrice tx, _chainId tx, _from tx, _input tx with
  | Some nonce, Some gas, Some gasPrice, Some chainId, Some from, Some input =>
      isQuantity nonce && isQuantity gas && isQuantity gasPrice && isQuantity chainId
      && utils.isAddress from && (toLowerCase from =? from)
      && isByteString input && utils.isHex (Str input) && (toHex (Str input) =? input)
      && forallb signatureOk (_signatures tx)
  | _, _, _, _, _, _ => false
  end.

Definition with_from (tx : ChainDataAnchoring) (a : option string) : ChainDataAnchoring :=
  mkTx a (_nonce tx) (_gas tx) (_gasPrice tx) (_chainId tx) (_input tx) (_signatures tx).

(** the computation does not fail with UnsupportedTypeTagError *)
Definition tagFree {A : Type} (r : result A) : Prop :=
  r <> Throw UnsupportedTypeTagError.

(** ** Sample data *)

Definition sig_sample : SignatureData :=
  mkSig "0x25"
        "0xe58b9abf9f33a066b998fccaca711553fb4df425c9234bbb3577f9d9775bb124"
        "0x2c409a6c5d92277c0a812dd0cc553d7fe1d652a807274c3786df3292cd473e09".

(** a filled and signed transaction *)
Definition tx_sample : ChainDataAnchoring :=
  {| _from := Some "0xa94f5374fce5edbc8e2a8697c15331677e6ebf0b";
     _nonce := Some "0x4d2";
     _gas := Some "0xf4240";
     _gasPrice := Some "0x19";
     _chainId := Some "0x1";
     _input := Some "0xf8a6a00000000000000000000000000000000000000000000000000000000000000000";
     _signatures := [sig_sample] |}.

(** the same transaction before it is signed *)
Definition tx_unsigned : ChainDataAnchoring :=
  {| _from := Some "0xa94f5374fce5edbc8e2a8697c15331677e6ebf0b";
     _nonce := Some "0x4d2";
     _gas := Some "0xf4240";
     _gasPrice := Some "0x19";
     _chainId := Some "0x1";
     _input := Some "0xf8a6a00000000000000000000000000000000000000000000000000000000000000000";
     _signatures := [] |}.

(** a raw transaction whose nonce, gasPrice and gas are written with leading
    zero bytes: 0x0001, 0x00000019 and 0x000f4240 *)
Definition raw_padded : string :=
  "0x48f86d820001840000001984000f424094a94f5374fce5edbc8e2a8697c15331677e6ebf0b83f8a6a0f845f84325a0e58b9abf9f33a066b998fccaca711553fb4df425c9234bbb3577f9d9775bb124a02c409a6c5d92277c0a812dd0cc553d7fe1d652a807274c3786df3292cd473e09".

Definition fields_padded : list value :=
  [Str "0x0001"; Str "0x00000019"; Str "0x000f4240";
   Str "0xa94f5374fce5edbc8e2a8697c15331677e6ebf0b"; Str "0xf8a6a0";
   Arr [SignatureData_encode sig_sample]].

(** an RPC collaborator that answers every call *)
Definition rpc_sample : KlaytnCall :=
  {| getChainId := Ok (Str "0x2019");
     getGasPrice := Ok (Str "0x5d21dba00");
     getTransactionCount := fun _ => Ok (Str "0x7") |}.

(** an RPC collaborator whose nonce query is rejected *)
Definition rpc_rejecting : KlaytnCall :=
  {| getChainId := Ok (Str "0x2019");
     getGasPrice := Ok (Str "0x5d21dba00");
     getTransactionCount := fun _ => Throw (RpcError "connection refused") |}.

(** a draft: the caller has set gasPrice only *)
Definition tx_draft : ChainDataAnchoring :=
  {| _from := Some "0xa94f5374fce5edbc8e2a8697c15331677e6ebf0b";
     _nonce := None;
     _gas := Some "0xf4240";
     _gasPrice := Some "0x19";
     _chainId := None;
     _input := Some "0xf8a6a0";
     _signatures := [] |}.

(** the RPC calls [fillTransaction] is expected to make: one for each of
    chainId, gasPrice and nonce that is unset, in this order *)
Definition callsFor (tx : ChainDataAnchoring) : list RpcCall :=
  ((if isNot (_chainId tx) then [CallGetChainId] else [])
   ++ (if isNot (_gasPrice tx) then [CallGetGasPrice] else [])
   ++ (if isNot (_nonce tx) then [CallGetTransactionCount (_from tx)] else []))%list.

(** ** Definitions for the further properties *)

Definition prefixedField (f : option string) : bool :=
  match f with
  | None => true
  | Some s => startsWith s "0x"
  end.



(** the field object [createTxObj] with other [input] and [data] *)
Definition with_payload (createTxObj : CreateTransactionObject) (input data : value)
  : CreateTransactionObject :=
  {| o_from := o_from createTxObj;
     o_nonce := o_nonce createTxObj;
     o_gas := o_gas createTxObj;
     o_gasPrice := o_gasPrice createTxObj;
     o_chainId := o_chainId createTxObj;
     o_input := input;
     o_data := data;
     o_signatures := o_signatures createTxObj |}.

(** two items behind the six of [fields_padded] *)
Definition extra_sample : list value := [Str "0x01"; Arr []].

(** the same for the fields that are signed *)
Definition signedFieldsOk (tx : ChainDataAnchoring) : bool :=
  quantityField (_nonce tx) && quantityField (_gas tx) && quantityField (_gasPrice tx)
  && prefixedField (_from tx) && prefixedField (_input tx).

(** The contract of [utils.toHex] on a string that is already written with
    "0x": it is returned as it is. *)
Definition toHexKeeps (toHex : value -> string) : Prop :=
  forall s : string, startsWith s "0x" = true -> toHex (Str s) = s.

(** The states of a transaction object: what the constructor returns, and
    what the setters and [fillTransaction] make of such an object. *)
Inductive reachable (toHex : value -> string) : ChainDataAnchoring -> Prop :=
| reach_new (arg : CreateArg) (this : ChainDataAnchoring) :
    new toHex arg = Ok this -> reachable toHex this
| reach_set_gasPrice (g : value) (this this' : ChainDataAnchoring) :
    reachable toHex this -> set_gasPrice g this = Ok this' -> reachable toHex this'
| reach_set_input (input : value) (this this' : ChainDataAnchoring) :
    reachable toHex this -> set_input toHex input this = Ok this' -> reachable toHex this'
| reach_fillTransaction (klaytnCall : KlaytnCall) (this : ChainDataAnchoring) :
    reachable toHex this -> reachable toHex (fill_tx (fillTransaction klaytnCall this)).

(** nonce, gas, gasPrice, chainId and the sender are set *)
Definition filled (tx : ChainDataAnchoring) : bool :=
  negb (isNot (_nonce tx)) && negb (isNot (_gas tx)) && negb (isNot (_gasPrice tx))
  && negb (isNot (_chainId tx)) && negb (isNot (_from tx)).

(** the sender, when set, is a lower-case address *)
Definition addressField (f : option string) : bool :=
  match f with
  | None => true
  | Some a => utils.isAddress a && (toLowerCase a =? a)
  end.

(** the field is set and holds a byte string *)
Definition byteStringField (f : option string) : bool :=
  match f with
  | None => false
  | Some s => isByteString s
  end.

(** a field object with every field of [tx_sample] but the input, signed *)
Definition obj_signed (input : value) : CreateTransactionObject :=
  {| o_from := Str "0xa94f5374fce5edbc8e2a8697c15331677e6ebf0b";
     o_nonce := Str "0x4d2"; o_gas := Str "0xf4240";
     o_gasPrice := Str "0x19"; o_chainId := Str "0x1";
     o_input := input; o_data := Undefined;
     o_signatures := Arr [SignatureData_encode sig_sample] |}.

(** the transaction the constructor makes of [obj_signed] *)
Definition tx_signed (input : string) : ChainDataAnchoring :=
  {| _from := Some "0xa94f5374fce5edbc8e2a8697c15331677e6ebf0b";
     _nonce := Some "0x4d2";
     _gas := Some "0xf4240";
     _gasPrice := Some "0x19";
     _chainId := Some "0x1";
     _input := Some input;
     _signatures := [sig_sample] |}.



(** the RPC collaborator rejects a call that [fillTransaction] makes *)
Definition rejected (klaytnCall : KlaytnCall) (this : ChainDataAnchoring) : bool :=
  (isNot (_chainId this)
   && match getChainId klaytnCall with Throw _ => true | Ok _ => false end)
  || (isNot (_gasPrice this)
      && match getGasPrice klaytnCall with Throw _ => true | Ok _ => false end)
  || (isNot (_nonce this)
      && match getTransactionCount klaytnCall (_from this) with
         | Throw _ => true
         | Ok _ => false
         end).

(** * Properties *)

(** ** Strings *)

Lemma length_append (a b : string) :
  String.length (a ++ b) = String.length a + String.length b.
Proof. induction a as [|c a IH]; simpl; [reflexivity | now rewrite IH]. Qed.

Lemma app_assoc_str (a b c : string) : (a ++ b) ++ c = a ++ (b ++ c).
Proof. induction a as [|x a IH]; simpl; [reflexivity | now rewrite IH]. Qed.

Lemma app_empty_r (a : string) : a ++ "" = a.
Proof. induction a as [|x a IH]; simpl; [reflexivity | now rewrite IH]. Qed.

Lemma sliceFrom_app (a b : string) : sliceFrom (String.length a) (a ++ b) = b.
Proof. induction a as [|x a IH]; simpl; [now destruct b | exact IH]. Qed.

Lemma takeStr_app (a b : string) : takeStr (String.length a) (a ++ b) = a.
Proof. induction a as [|x a IH]; simpl; [now destruct b | now rewrite IH]. Qed.

(** [s.slice(i, j)] inside a concatenation reads the middle part. *)
Lemma slice_middle (pre x post : string) :
  slice (String.length pre) (String.length pre + String.length x) (pre ++ x ++ post) = x.
Proof.
  unfold slice. rewrite sliceFrom_app.
  replace (String.length pre + String.length x - String.length pre) with (String.length x) by lia.
  apply takeStr_app.
Qed.

Lemma slice_middle' (pre x post : string) (i j : nat) :
  i = String.length pre -> j = i + String.length x ->
  slice i j (pre ++ x ++ post) = x.
Proof. intros -> ->. apply slice_middle. Qed.

Lemma startsWith_app (p s : string) : startsWith (p ++ s) p = true.
Proof.
  unfold startsWith. induction p as [|c p IH]; simpl.
  - now destruct s.
  - destruct (ascii_dec c c); [exact IH | congruence].
Qed.

Lemma startsWith_inv (s p : string) :
  startsWith s p = true -> s = p ++ sliceFrom (String.length p) s.
Proof.
  unfold startsWith. revert s. induction p as [|c p IH]; intros s; simpl.
  - reflexivity.
  - destruct s as [|d s]; simpl; [discriminate|].
    destruct (ascii_dec c d); [subst | discriminate].
    intros H. f_equal. now apply IH.
Qed.

Lemma lowerChar_idem (c : ascii) : lowerChar (lowerChar c) = lowerChar c.
Proof.
  destruct c as [[] [] [] [] [] [] [] []]; reflexivity.
Qed.

Lemma toLowerCase_idem (s : string) : toLowerCase (toLowerCase s) = toLowerCase s.
Proof.
  induction s as [|c s IH]; simpl; [reflexivity | now rewrite lowerChar_idem, IH].
Qed.

(** ** Hexadecimal numerals *)

Lemma allHex_of_pos : forall (p : positive) (rest : string),
  allHex (HexString.Raw.of_pos p rest) = allHex rest.
Proof.
  fix IH 1. intros p rest.
  do 4 try destruct p as [p|p|]; try reflexivity;
    cbn [HexString.Raw.of_pos]; rewrite IH; reflexivity.
Qed.

Lemma of_pos_length : forall (p : positive) (rest : string),
  exists k : nat,
    String.length (HexString.Raw.of_pos p rest) = S k + String.length rest
    /\ (16 ^ N.of_nat k <= N.pos p)%N.
Proof.
  fix IH 1. intros p rest.
  do 4 try destruct p as [p|p|];
    try (exists 0; split; [reflexivity | cbn; lia]);
    cbn [HexString.Raw.of_pos];
    match goal with
    | |- context [HexString.Raw.of_pos p (String ?d rest)] =>
        destruct (IH p (String d rest)) as (k & Hl & Hb)
    end;
    (exists (S k); split;
     [ rewrite Hl; simpl; lia
     | rewrite Nat2N.inj_succ, N.pow_succ_r by lia; lia ]).
Qed.

Lemma toString16_allHex (n : N) : allHex (toString16 n) = true.
Proof. destruct n; simpl; [reflexivity | now rewrite allHex_of_pos]. Qed.

Lemma toString16_nonempty (n : N) : toString16 n <> "".
Proof.
  destruct n as [|p]; simpl; [discriminate|].
  destruct (of_pos_length p "") as (k & Hl & _).
  intros E. rewrite E in Hl. discriminate.
Qed.

Lemma toString16_value (n : N) : HexString.Raw.to_N (toString16 n) 0 = n.
Proof.
  destruct n as [|p]; simpl; [reflexivity|].
  now rewrite HexString.Raw.to_N_of_pos.
Qed.

(** a numeral below [16 ^ k] has at most [k] digits *)
Lemma toString16_length (n : N) (k : nat) :
  (n < 16 ^ N.of_nat k)%N -> 0 < k -> String.length (toString16 n) <= k.
Proof.
  intros Hn Hk. destruct n as [|p]; simpl; [lia|].
  destruct (of_pos_length p "") as (j & Hl & Hb). rewrite Hl. simpl.
  assert (N.of_nat j < N.of_nat k)%N; [|lia].
  apply (N.pow_lt_mono_r_iff 16); lia.
Qed.

(** ** The headers of RLP *)

Lemma padEven_even (s : string) : Nat.even (String.length (RLP.padEven s)) = true.
Proof.
  unfold RLP.padEven. destruct (Nat.even (String.length s)) eqn:E; [exact E|].
  change (String.length ("0" ++ s)) with (S (String.length s)).
  rewrite Nat.even_succ, <- Nat.negb_even, E. reflexivity.
Qed.

Lemma uint_even (n : N) : Nat.even (String.length (RLP.uint n)) = true.
Proof. apply padEven_even. Qed.

Lemma uint_parse (n : N) : parseInt16 (RLP.uint n) = Some n.
Proof.
  unfold RLP.uint, RLP.padEven, parseInt16.
  destruct (Nat.even (String.length (toString16 n))).
  - destruct (toString16 n) eqn:E; [now apply toString16_nonempty in E|].
    rewrite <- E, toString16_allHex, toString16_value. reflexivity.
  - change ("0" ++ toString16 n) with (String "0" (toString16 n)).
    cbn [allHex HexString.Raw.to_N]. rewrite toString16_allHex.
    change (isHexDigit "0") with true. cbn. now rewrite toString16_value.
Qed.

Lemma uint_length_le (n : N) (k : nat) :
  (n < 16 ^ N.of_nat (2 * k))%N -> 0 < k -> String.length (RLP.uint n) <= 2 * k.
Proof.
  intros Hn Hk. pose proof (toString16_length n (2 * k) Hn ltac:(lia)) as Hl.
  unfold RLP.uint, RLP.padEven.
  destruct (Nat.even (String.length (toString16 n))) eqn:E; [exact Hl|].
  change (String.length ("0" ++ toString16 n)) with (S (String.length (toString16 n))).
  destruct (Nat.eq_dec (String.length (toString16 n)) (2 * k)) as [E2|]; [|lia].
  rewrite E2, Nat.even_mul in E. discriminate.
Qed.

Lemma uint_length_pos (n : N) : 2 <= String.length (RLP.uint n).
Proof.
  pose proof (uint_even n) as E.
  destruct (RLP.uint n) as [|a [|b s]] eqn:U; simpl in *; try lia; try discriminate.
  unfold RLP.uint, RLP.padEven in U.
  destruct (Nat.even (String.length (toString16 n))); [|discriminate].
  now apply toString16_nonempty in U.
Qed.

Lemma byte_head_all : forallb byte_head_ok (seq 0 256) = true.
Proof. vm_compute. reflexivity. Qed.

Lemma byte_head (b : N) :
  (b < 256)%N ->
  String.length (RLP.uint b) = 2
  /\ (RLP.uint b <? "80") = (b <? 128)%N
  /\ (RLP.uint b <? "c0") = (b <? 192)%N.
Proof.
  intros Hb.
  pose proof byte_head_all as H. rewrite forallb_forall in H.
  specialize (H (N.to_nat b)).
  assert (Hin : In (N.to_nat b) (seq 0 256)) by (apply in_seq; lia).
  apply H in Hin. unfold byte_head_ok in Hin. rewrite N2Nat.id in Hin.
  apply andb_prop in Hin as [Hin H3]. apply andb_prop in Hin as [H1 H2].
  apply Nat.eqb_eq in H1. apply Bool.eqb_prop in H2, H3.
  split; [exact H1|]. split.
  - rewrite H2. destruct (N.ltb_spec b 128), (Nat.ltb_spec (N.to_nat b) 128); try reflexivity; lia.
  - rewrite H3. destruct (N.ltb_spec b 192), (Nat.ltb_spec (N.to_nat b) 192); try reflexivity; lia.
Qed.

Lemma mod64_header (add x : N) :
  (add = 128 \/ add = 192)%N -> (x < 64)%N -> ((add + x) mod 64 = x)%N.
Proof.
  intros [-> | ->] Hx.
  - change 128%N with (2 * 64)%N. rewrite N.add_comm, N.Div0.mod_add. now apply N.mod_small.
  - change 192%N with (3 * 64)%N. rewrite N.add_comm, N.Div0.mod_add. now apply N.mod_small.
Qed.

(** The header [length(len, add)] opens with one byte [b] in the range of
    its kind, and [parseLength] reads the length back from it. *)
Lemma length_header (len : nat) (add : N) :
  (add = 128 \/ add = 192)%N -> (N.of_nat len < 2 ^ 64)%N ->
  exists (b : N) (tail : string),
    RLP.length_ len add = RLP.uint b ++ tail
    /\ (add <= b < add + 64)%N
    /\ forall pre rest : string,
         RLP.parseLength (pre ++ (RLP.uint b ++ tail) ++ rest) (String.length pre)
         = Ok (len, String.length pre + String.length (RLP.uint b ++ tail)).
Proof.
  intros Hadd Hlen. unfold RLP.length_.
  destruct (Nat.ltb_spec len 56) as [Hs | Hl].
  - exists (add + N.of_nat len)%N, "". rewrite app_empty_r.
    split; [reflexivity|]. split; [lia|]. intros pre rest.
    assert (Hb : (add + N.of_nat len < 256)%N) by (destruct Hadd; subst; lia).
    destruct (byte_head _ Hb) as (L2 & _ & _).
    unfold RLP.parseLength.
    rewrite (slice_middle' pre (RLP.uint (add + N.of_nat len)) rest) by lia.
    rewrite uint_parse, mod64_header by lia. rewrite Nat2N.id.
    destruct (Nat.ltb_spec len 56); [|lia]. now rewrite L2.
  - set (u := RLP.uint (N.of_nat len)).
    assert (Hev : Nat.even (String.length u) = true) by apply uint_even.
    apply Nat.even_spec in Hev as [k Hk].
    assert (Hle : String.length u <= 2 * 8).
    { apply uint_length_le; [|lia]. exact Hlen. }
    pose proof (uint_length_pos (N.of_nat len)) as Hpos. fold u in Hpos.
    assert (Hdiv : String.length u / 2 = k) by (rewrite Hk, Nat.mul_comm; apply Nat.div_mul; lia).
    rewrite Hdiv.
    replace (add + N.of_nat k + 55)%N with (add + (N.of_nat k + 55))%N by lia.
    set (b := (add + (N.of_nat k + 55))%N).
    exists b, u.
    split; [reflexivity|]. split; [unfold b; lia|]. intros pre rest.
    assert (Hb : (b < 256)%N) by (unfold b; destruct Hadd; subst; lia).
    destruct (byte_head _ Hb) as (L2 & _ & _).
    unfold RLP.parseLength.
    rewrite app_assoc_str.
    rewrite (slice_middle' pre (RLP.uint b) (u ++ rest)) by lia.
    assert (Hmod : N.to_nat (b mod 64) = k + 55).
    { unfold b. rewrite mod64_header by lia. lia. }
    rewrite uint_parse. cbv beta iota zeta. rewrite !Hmod.
    destruct (Nat.ltb_spec (k + 55) 56); [lia|].
    rewrite <- app_assoc_str.
    rewrite (slice_middle' (pre ++ RLP.uint b) u rest)
      by (rewrite ?length_append; lia).
    unfold u at 1. rewrite uint_parse, Nat2N.id.
    f_equal. f_equal. rewrite !length_append. fold u. lia.
Qed.

(** ** The RLP codec reads back what it writes *)

Lemma value_ind' (P : value -> Prop) :
  P Undefined -> (forall n, P (Num n)) -> (forall s, P (Str s)) ->
  (forall l, Forall P l -> P (Arr l)) ->
  forall t, P t.
Proof.
  intros HU HN HS HA. fix IH 1. intros [| n | s | l].
  - exact HU.
  - apply HN.
  - apply HS.
  - apply HA. induction l as [|t l IHl]; constructor; [apply IH | exact IHl].
Qed.

Lemma dataTree_Arr (l : list value) :
  RLP.dataTree (Arr l)
  = (hex <- joinTree l ;; Ok (RLP.length_ (String.length hex / 2) 192 ++ hex)).
Proof. reflexivity. Qed.

Lemma joinTree_cons (t : value) (l : list value) :
  joinTree (t :: l) = (h <- RLP.dataTree t ;; r <- joinTree l ;; Ok (h ++ r)).
Proof. reflexivity. Qed.

Lemma cost_Arr (l : list value) : cost (Arr l) = S (costItems l).
Proof. reflexivity. Qed.

Lemma costItems_cons (t : value) (l : list value) :
  costItems (t :: l) = S (Nat.max (cost t) (costItems l)).
Proof. reflexivity. Qed.

Lemma bind_Ok {A B : Type} (r : result A) (k : A -> result B) (b : B) :
  bind r k = Ok b -> exists a, r = Ok a /\ k a = Ok b.
Proof. destruct r as [a|e]; simpl; [eauto | discriminate]. Qed.

Lemma length_even (len : nat) (add : N) :
  Nat.even (String.length (RLP.length_ len add)) = true
  /\ 2 <= String.length (RLP.length_ len add).
Proof.
  unfold RLP.length_. destruct (len <? 56)%nat.
  - split; [apply uint_even | apply uint_length_pos].
  - rewrite length_append, Nat.even_add, !uint_even. split; [reflexivity|].
    pose proof (uint_length_pos (N.of_nat len)). lia.
Qed.

Lemma Ok_inj {A : Type} (a b : A) : Ok a = Ok b -> a = b.
Proof. congruence. Qed.

(** The two shapes of the encoding of a string: a single byte below 0x80 is
    its own encoding, anything else follows a header. *)
Lemma dataTree_Str_inv (s e : string) :
  RLP.dataTree (Str s) = Ok e ->
  Nat.even (String.length (sliceFrom 2 s)) = true
  /\ ((String.length (sliceFrom 2 s) = 2 /\ ("80" <=? sliceFrom 2 s) = false
       /\ e = sliceFrom 2 s)
      \/ e = RLP.length_ (String.length (sliceFrom 2 s) / 2) 128 ++ sliceFrom 2 s).
Proof.
  cbn [RLP.dataTree]. generalize (sliceFrom 2 s) as h. intros h.
  destruct (Nat.odd (String.length h)) eqn:Hodd; [discriminate|].
  intros He. apply Ok_inj in He. subst e.
  split; [rewrite <- Nat.negb_odd, Hodd; reflexivity|].
  destruct (negb (String.length h =? 2)%nat || ("80" <=? h)) eqn:Hc.
  - right. reflexivity.
  - left. apply orb_false_elim in Hc as [Hc1 Hc2].
    apply negb_false_iff, Nat.eqb_eq in Hc1. auto.
Qed.

(** An encoding has an even number of digits, and at least two. *)
Lemma dataTree_even : forall (t : value) (e : string),
  RLP.dataTree t = Ok e ->
  Nat.even (String.length e) = true /\ 2 <= String.length e.
Proof.
  induction t as [| n | s | l IH] using value_ind'; intros e He; try discriminate He.
  - apply dataTree_Str_inv in He as [Hev [(H2 & _ & ->) | ->]].
    + split; [exact Hev | lia].
    + rewrite length_append, Nat.even_add, Hev.
      destruct (length_even (String.length (sliceFrom 2 s) / 2) 128) as [-> ?].
      split; [reflexivity | lia].
  - rewrite dataTree_Arr in He. apply bind_Ok in He as (hex & Hj & He).
    apply Ok_inj in He. subst e.
    assert (Hev : Nat.even (String.length hex) = true).
    { clear - IH Hj. revert hex Hj. induction IH as [|t l Ht _ IHl]; intros hex Hj.
      - apply Ok_inj in Hj; subst hex. reflexivity.
      - rewrite joinTree_cons in Hj. apply bind_Ok in Hj as (h & Hh & Hj).
        apply bind_Ok in Hj as (r & Hr & Hj). apply Ok_inj in Hj; subst hex.
        rewrite length_append, Nat.even_add.
        destruct (Ht _ Hh) as [-> _]. now rewrite (IHl _ Hr). }
    rewrite length_append, Nat.even_add, Hev.
    destruct (length_even (String.length hex / 2) 192) as [-> ?].
    split; [reflexivity | lia].
Qed.

Lemma cost_le : forall (t : value) (e : string),
  RLP.dataTree t = Ok e -> cost t <= String.length e.
Proof.
  induction t as [| n | s | l IH] using value_ind'; intros e He; try discriminate He.
  - pose proof (dataTree_even _ _ He). simpl. lia.
  - rewrite dataTree_Arr in He. apply bind_Ok in He as (hex & Hj & He).
    apply Ok_inj in He. subst e. rewrite cost_Arr, length_append.
    destruct (length_even (String.length hex / 2) 192) as [_ ?].
    assert (costItems l <= S (String.length hex)); [|lia].
    clear - IH Hj. revert hex Hj. induction IH as [|t l Ht _ IHl]; intros hex Hj.
    + simpl. lia.
    + rewrite joinTree_cons in Hj. apply bind_Ok in Hj as (h & Hh & Hj).
      apply bind_Ok in Hj as (r & Hr & Hj). apply Ok_inj in Hj; subst hex.
      rewrite costItems_cons, length_append.
      specialize (Ht _ Hh). specialize (IHl _ Hr).
      pose proof (dataTree_even _ _ Hh). lia.
Qed.

Lemma slice_in (hex pre x rest : string) (i j : nat) :
  hex = pre ++ x ++ rest -> i = String.length pre -> j = i + String.length x ->
  slice i j hex = x.
Proof. intros -> -> ->. apply slice_middle. Qed.

Lemma ltb_of_leb_false (a b : string) : (a <=? b) = false -> (b <? a) = true.
Proof.
  unfold String.leb, String.ltb. rewrite (String.compare_antisym b a).
  destruct (a ?= b)%string; simpl; congruence.
Qed.

(** the items of a list, one after the other, up to the limit *)
Lemma parseItems_joinTree (l : list value) :
  Forall (fun t => forall e : string,
            byteTree t = true -> RLP.dataTree t = Ok e ->
            (N.of_nat (String.length e) < 2 ^ 64)%N ->
            forall (fuel : nat) (pre post : string), cost t <= fuel ->
              RLP.parseTree fuel (pre ++ e ++ post) (String.length pre)
              = Ok (t, String.length pre + String.length e)) l ->
  forall hexl : string,
    forallb byteTree l = true -> joinTree l = Ok hexl ->
    (N.of_nat (String.length hexl) < 2 ^ 64)%N ->
    forall (fuel : nat) (pre post : string), costItems l <= fuel ->
      RLP.parseItems fuel (pre ++ hexl ++ post) (String.length pre + String.length hexl)
                     (String.length pre)
      = Ok (l, String.length pre + String.length hexl).
Proof.
  induction 1 as [|t l Ht _ IHl]; intros hexl Hb Hj Hlen fuel pre post Hfuel.
  - apply Ok_inj in Hj. subst hexl.
    destruct fuel as [|f]; [simpl in Hfuel; lia|].
    cbn [RLP.parseItems String.length]. rewrite Nat.add_0_r, Nat.ltb_irrefl. reflexivity.
  - rewrite joinTree_cons in Hj. apply bind_Ok in Hj as (h & Hh & Hj).
    apply bind_Ok in Hj as (r & Hr & Hj). apply Ok_inj in Hj. subst hexl.
    cbn [forallb] in Hb. apply andb_prop in Hb as [Hbt Hbl].
    rewrite costItems_cons in Hfuel.
    destruct fuel as [|f]; [lia|].
    pose proof (dataTree_even _ _ Hh) as [_ Hh2].
    rewrite length_append in Hlen |- *.
    cbn [RLP.parseItems].
    destruct (Nat.ltb_spec (String.length pre)
                (String.length pre + (String.length h + String.length r))); [|lia].
    rewrite app_assoc_str.
    rewrite (Ht h Hbt Hh ltac:(lia) f pre (r ++ post) ltac:(lia)).
    cbn [bind].
    replace (pre ++ h ++ r ++ post) with ((pre ++ h) ++ r ++ post)
      by (now rewrite app_assoc_str).
    replace (String.length pre + (String.length h + String.length r))
      with (String.length (pre ++ h) + String.length r)
      by (rewrite length_append; lia).
    replace (String.length pre + String.length h) with (String.length (pre ++ h))
      by (now rewrite length_append).
    rewrite (IHl r Hbl Hr ltac:(lia) f (pre ++ h) post ltac:(lia)).
    reflexivity.
Qed.

(** [parseTree], placed on the encoding of a tree inside any input, reads the
    tree and stops behind the encoding. *)
Lemma parseTree_dataTree : forall (t : value) (e : string),
  byteTree t = true -> RLP.dataTree t = Ok e ->
  (N.of_nat (String.length e) < 2 ^ 64)%N ->
  forall (fuel : nat) (pre post : string), cost t <= fuel ->
    RLP.parseTree fuel (pre ++ e ++ post) (String.length pre)
    = Ok (t, String.length pre + String.length e).
Proof.
  induction t as [| n | s | l IH] using value_ind';
    intros e Hb He Hlen fuel pre post Hfuel; try discriminate He.
  - (* a string *)
    cbn [byteTree] in Hb. apply startsWith_inv in Hb. cbn [String.length] in Hb.
    destruct fuel as [|f]; [simpl in Hfuel; lia|].
    pose proof (dataTree_even _ _ He) as [_ He2].
    apply dataTree_Str_inv in He as [Hev Hcase].
    set (h := sliceFrom 2 s) in *.
    assert (Hnot : (String.length (pre ++ e ++ post) <=? String.length pre)%nat = false).
    { apply Nat.leb_gt. rewrite !length_append. lia. }
    cbn [RLP.parseTree]. rewrite Hnot. clear Hnot.
    destruct Hcase as [(H2 & H80 & ->) | ->].
    + rewrite (slice_in _ pre h post) by (reflexivity || lia).
      rewrite (ltb_of_leb_false _ _ H80). rewrite Hb, H2. f_equal.
    + destruct (length_header (String.length h / 2) 128) as (b & tail & Hhd & Hrange & Hparse);
        [now left | rewrite length_append in Hlen;
                    pose proof (Nat.Div0.mul_div_le (String.length h) 2); lia |].
      rewrite Hhd in *.
      set (hex := pre ++ ((RLP.uint b ++ tail) ++ h) ++ post).
      assert (Hb256 : (b < 256)%N) by lia.
      destruct (byte_head b Hb256) as (L2 & C80 & Cc0).
      rewrite (slice_in hex pre (RLP.uint b) (tail ++ h ++ post))
        by (try (unfold hex; rewrite ?app_assoc_str; reflexivity); lia).
      rewrite C80, Cc0.
      destruct (N.ltb_spec b 128); [lia|]. destruct (N.ltb_spec b 192); [|lia].
      unfold RLP.parseHex.
      replace hex with (pre ++ (RLP.uint b ++ tail) ++ (h ++ post)) at 1
        by (unfold hex; rewrite ?app_assoc_str; reflexivity).
      rewrite Hparse. cbn [bind].
      apply Nat.even_spec in Hev as [k Hk].
      assert (Hdiv : String.length h / 2 = k)
        by (rewrite Hk, Nat.mul_comm; apply Nat.div_mul; lia).
      rewrite Hdiv.
      rewrite (slice_in hex (pre ++ RLP.uint b ++ tail) h post)
        by (try (unfold hex; rewrite ?app_assoc_str; reflexivity); rewrite ?length_append; lia).
      rewrite Hb. f_equal. f_equal. rewrite !length_append. lia.
  - (* a list *)
    cbn [byteTree] in Hb.
    destruct fuel as [|f]; [simpl in Hfuel; lia|].
    rewrite cost_Arr in Hfuel.
    rewrite dataTree_Arr in He. apply bind_Ok in He as (hexl & Hj & He).
    apply Ok_inj in He. subst e.
    pose proof (length_even (String.length hexl / 2) 192) as [Hhdev Hhd2].
    assert (Hnot : (String.length (pre ++ (RLP.length_ (String.length hexl / 2) 192 ++ hexl) ++ post)
                    <=? String.length pre)%nat = false).
    { apply Nat.leb_gt. rewrite !length_append. lia. }
    cbn [RLP.parseTree]. rewrite Hnot. clear Hnot.
    rewrite length_append in Hlen.
    assert (Hev : Nat.even (String.length hexl) = true).
    { assert (Hd : RLP.dataTree (Arr l) = Ok (RLP.length_ (String.length hexl / 2) 192 ++ hexl))
        by (rewrite dataTree_Arr, Hj; reflexivity).
      apply dataTree_even in Hd as [Hd _].
      rewrite length_append, Nat.even_add, Hhdev in Hd.
      now destruct (Nat.even (String.length hexl)). }
    destruct (length_header (String.length hexl / 2) 192) as (b & tail & Hhd & Hrange & Hparse);
      [now right | pose proof (Nat.Div0.mul_div_le (String.length hexl) 2); lia |].
    rewrite Hhd in *.
    set (hex := pre ++ ((RLP.uint b ++ tail) ++ hexl) ++ post).
    assert (Hb256 : (b < 256)%N) by lia.
    destruct (byte_head b Hb256) as (L2 & C80 & Cc0).
    rewrite (slice_in hex pre (RLP.uint b) (tail ++ hexl ++ post))
      by (try (unfold hex; rewrite ?app_assoc_str; reflexivity); lia).
    rewrite C80, Cc0.
    destruct (N.ltb_spec b 128); [lia|]. destruct (N.ltb_spec b 192); [lia|].
    replace hex with (pre ++ (RLP.uint b ++ tail) ++ (hexl ++ post)) at 1
      by (unfold hex; rewrite ?app_assoc_str; reflexivity).
    rewrite Hparse. cbn [bind].
    apply Nat.even_spec in Hev as [k Hk].
    assert (Hdiv : String.length hexl / 2 = k)
      by (rewrite Hk, Nat.mul_comm; apply Nat.div_mul; lia).
    rewrite Hdiv.
    replace hex with ((pre ++ RLP.uint b ++ tail) ++ hexl ++ post)
      by (unfold hex; rewrite ?app_assoc_str; reflexivity).
    replace (k * 2 + (String.length pre + String.length (RLP.uint b ++ tail)))
      with (String.length (pre ++ RLP.uint b ++ tail) + String.length hexl)
      by (rewrite !length_append; lia).
    replace (String.length pre + String.length (RLP.uint b ++ tail))
      with (String.length (pre ++ RLP.uint b ++ tail))
      by (rewrite !length_append; lia).
    rewrite (parseItems_joinTree l IH hexl Hb Hj ltac:(lia) f _ post ltac:(lia)).
    cbn [bind]. f_equal. f_equal. rewrite !length_append. lia.
Qed.

(** [RLP.decode] inverts [RLP.encode] on trees of byte strings. *)
Lemma decode_encode (t : value) (e : string) :
  byteTree t = true -> RLP.encode t = Ok e ->
  (N.of_nat (String.length e) < 2 ^ 64)%N ->
  RLP.decode e = Ok t.
Proof.
  intros Hb He Hlen. unfold RLP.encode in He.
  apply bind_Ok in He as (d & Hd & He). apply Ok_inj in He. subst e.
  unfold RLP.decode.
  replace ("0x" ++ d) with ("0x" ++ d ++ "") at 2 by (now rewrite app_empty_r).
  rewrite (parseTree_dataTree t d Hb Hd) with (pre := "0x").
  - reflexivity.
  - rewrite length_append in Hlen. lia.
  - pose proof (cost_le _ _ Hd). rewrite length_append. lia.
Qed.

Lemma evenTree_byteTree : forall t : value, evenTree t = true -> byteTree t = true.
Proof.
  induction t as [| n | s | l IH] using value_ind'; intros H; try discriminate H.
  - cbn [evenTree byteTree] in *. unfold isByteString in H. now apply andb_prop in H.
  - cbn [evenTree byteTree] in *. induction IH as [|t l Ht _ IHl]; [reflexivity|].
    cbn [forallb] in *. apply andb_prop in H as [H1 H2].
    now rewrite Ht, IHl.
Qed.

Lemma isByteString_even (s : string) :
  isByteString s = true -> Nat.odd (String.length (sliceFrom 2 s)) = false.
Proof.
  unfold isByteString. intros H. apply andb_prop in H as [Hp He].
  apply startsWith_inv in Hp. rewrite Hp in He. cbn [String.length append] in He.
  rewrite <- Nat.negb_even. cbn [Nat.even] in He. now rewrite He.
Qed.

(** [RLP.encode] does not fail on a tree of byte strings. *)
Lemma dataTree_total : forall t : value,
  evenTree t = true -> exists e : string, RLP.dataTree t = Ok e.
Proof.
  induction t as [| n | s | l IH] using value_ind'; intros H; try discriminate H.
  - cbn [evenTree] in H. apply isByteString_even in H.
    cbn [RLP.dataTree]. rewrite H. eauto.
  - cbn [evenTree] in H. rewrite dataTree_Arr.
    assert (Hj : exists hex, joinTree l = Ok hex).
    { induction IH as [|t l Ht _ IHl]; [now exists ""|].
      cbn [forallb] in H. apply andb_prop in H as [H1 H2].
      destruct (Ht H1) as (h & Hh). destruct (IHl H2) as (r & Hr).
      rewrite joinTree_cons, Hh, Hr. cbn [bind]. eauto. }
    destruct Hj as (hex & ->). cbn [bind]. eauto.
Qed.

Lemma encode_total (t : value) :
  evenTree t = true -> exists e : string, RLP.encode t = Ok e /\ startsWith e "0x" = true.
Proof.
  intros H. destruct (dataTree_total t H) as (d & Hd).
  exists ("0x" ++ d). unfold RLP.encode. rewrite Hd. split; [reflexivity|].
  apply startsWith_app.
Qed.

(** ** The recursion bound of [RLP.decode] *)

Lemma parseLength_advances (hex : string) (i len i1 : nat) :
  RLP.parseLength hex i = Ok (len, i1) -> i + 2 <= i1.
Proof.
  unfold RLP.parseLength.
  destruct (parseInt16 (slice i (i + 2) hex)) as [h|]; [|discriminate].
  cbv zeta. destruct (N.to_nat (h mod 64) <? 56)%nat.
  - intros H. apply Ok_inj in H. injection H as _ <-. lia.
  - destruct (parseInt16 _) as [n|]; [|discriminate].
    intros H. apply Ok_inj in H. injection H as _ <-. lia.
Qed.

Lemma parseLength_fuel (hex : string) (i : nat) :
  RLP.parseLength hex i <> Throw OutOfFuel.
Proof.
  unfold RLP.parseLength.
  destruct (parseInt16 (slice i (i + 2) hex)) as [h|]; [|discriminate].
  cbv zeta. destruct (N.to_nat (h mod 64) <? 56)%nat; [discriminate|].
  destruct (parseInt16 _); discriminate.
Qed.

(** every call of the decoder moves the position forward *)
Lemma parseTree_advances : forall fuel : nat,
  (forall hex i t i', RLP.parseTree fuel hex i = Ok (t, i') -> i + 2 <= i')
  /\ (forall hex lim i l i', RLP.parseItems fuel hex lim i = Ok (l, i') -> i <= i').
Proof.
  induction fuel as [|f [IHt IHi]]; split; intros *; cbn [RLP.parseTree RLP.parseItems];
    try discriminate.
  - destruct (String.length hex <=? i)%nat; [discriminate|]. cbv zeta.
    destruct (slice i (i + 2) hex <? "80").
    { intros H. apply Ok_inj in H. injection H as _ <-. lia. }
    destruct (slice i (i + 2) hex <? "c0").
    + unfold RLP.parseHex. destruct (RLP.parseLength hex i) as [[len i1]|] eqn:E;
        [|discriminate].
      apply parseLength_advances in E. cbn [bind].
      intros H. apply Ok_inj in H. injection H as _ <-. lia.
    + destruct (RLP.parseLength hex i) as [[len i1]|] eqn:E; [|discriminate].
      apply parseLength_advances in E. cbn [bind].
      destruct (RLP.parseItems f hex (len * 2 + i1) i1) as [[l i2]|] eqn:E2;
        [|discriminate].
      apply IHi in E2. cbn [bind].
      intros H. apply Ok_inj in H. injection H as _ <-. lia.
  - destruct (i <? lim)%nat.
    + destruct (RLP.parseTree f hex i) as [[t i1]|] eqn:E; [|discriminate].
      apply IHt in E. cbn [bind].
      destruct (RLP.parseItems f hex lim i1) as [[l0 i2]|] eqn:E2; [|discriminate].
      apply IHi in E2. cbn [bind].
      intros H. apply Ok_inj in H. injection H as _ <-. lia.
    + intros H. apply Ok_inj in H. injection H as _ <-. lia.
Qed.

(** fuel above the number of characters left is enough *)
Lemma parseTree_fuel : forall fuel : nat,
  (forall hex i, 1 <= fuel -> (i < String.length hex -> String.length hex - i + 2 <= fuel) ->
     RLP.parseTree fuel hex i <> Throw OutOfFuel)
  /\ (forall hex lim i, 2 <= fuel ->
        (i < String.length hex -> String.length hex - i + 3 <= fuel) ->
        RLP.parseItems fuel hex lim i <> Throw OutOfFuel).
Proof.
  induction fuel as [|f [IHt IHi]]; split; intros * H1 Hf; try lia;
    cbn [RLP.parseTree RLP.parseItems].
  - destruct (Nat.leb_spec (String.length hex) i) as [Hle|Hgt]; [discriminate|].
    specialize (Hf Hgt).
    cbv zeta. destruct (slice i (i + 2) hex <? "80"); [discriminate|].
    destruct (slice i (i + 2) hex <? "c0").
    + unfold RLP.parseHex. pose proof (parseLength_fuel hex i) as Hp.
      destruct (RLP.parseLength hex i) as [[len i1]|e]; cbn [bind];
        [discriminate | congruence].
    + pose proof (parseLength_fuel hex i) as Hp.
      destruct (RLP.parseLength hex i) as [[len i1]|e] eqn:E; cbn [bind];
        [|congruence].
      apply parseLength_advances in E.
      pose proof (IHi hex (len * 2 + i1) i1 ltac:(lia) ltac:(lia)) as Hi.
      destruct (RLP.parseItems f hex (len * 2 + i1) i1) as [[l i2]|e]; cbn [bind];
        [discriminate | congruence].
  - destruct (i <? lim)%nat; [|discriminate].
    pose proof (IHt hex i ltac:(lia) ltac:(lia)) as Ht.
    destruct (RLP.parseTree f hex i) as [[t i1]|e] eqn:E; cbn [bind]; [|congruence].
    assert (Hin : i < String.length hex).
    { destruct f as [|f']; [discriminate E|]. cbn [RLP.parseTree] in E.
      destruct (Nat.leb_spec (String.length hex) i); [discriminate E | assumption]. }
    apply (proj1 (parseTree_advances f)) in E.
    pose proof (IHi hex lim i1 ltac:(lia) ltac:(lia)) as Hi.
    destruct (RLP.parseItems f hex lim i1) as [[l i2]|e]; cbn [bind];
      [discriminate | congruence].
Qed.

(** [RLP.decode] gives the recursion all the fuel it can use. *)
Lemma decode_fuel (hex : string) : RLP.decode hex <> Throw OutOfFuel.
Proof.
  unfold RLP.decode.
  pose proof (proj1 (parseTree_fuel (S (String.length hex))) hex 2
                ltac:(lia) ltac:(lia)) as H.
  destruct (RLP.parseTree (S (String.length hex)) hex 2) as [[t i]|e]; [discriminate|].
  destruct e; try discriminate. congruence.
Qed.

(** ** Integers: [Bytes.fromNat], [trimLeadingZero], [numberToHex] *)

Lemma stripZeros_zero (r : string) : utils.stripZeros (String "0" r) = utils.stripZeros r.
Proof. reflexivity. Qed.

Lemma stripZeros_other (c : ascii) (r : string) :
  c <> "0"%char -> utils.stripZeros (String c r) = String c r.
Proof.
  intros Hc. destruct c as [[] [] [] [] [] [] [] []]; try reflexivity. congruence.
Qed.

Lemma startsWith_zero (c : ascii) (r : string) :
  startsWith (String c r) "0" = if ascii_dec c "0" then true else false.
Proof.
  unfold startsWith. cbn [prefix].
  destruct (ascii_dec "0" c), (ascii_dec c "0"); try congruence; now destruct r.
Qed.

(** [stripZeros] leaves no zero in front. *)
Lemma stripZeros_head (d : string) : startsWith (utils.stripZeros d) "0" = false.
Proof.
  induction d as [|c d IH]; [reflexivity|].
  destruct (ascii_dec c "0") as [-> | Hc].
  - rewrite stripZeros_zero. exact IH.
  - rewrite stripZeros_other by exact Hc. rewrite startsWith_zero.
    destruct (ascii_dec c "0"); congruence.
Qed.

Lemma stripZeros_fixed (d : string) :
  startsWith d "0" = false -> utils.stripZeros d = d.
Proof.
  destruct d as [|c d]; [reflexivity|]. rewrite startsWith_zero.
  destruct (ascii_dec c "0"); [discriminate|]. intros _. now apply stripZeros_other.
Qed.

(** [stripZeros] keeps the number the digits denote. *)
Lemma stripZeros_value (d : string) :
  HexString.Raw.to_N (utils.stripZeros d) 0 = HexString.Raw.to_N d 0.
Proof.
  induction d as [|c d IH]; [reflexivity|].
  destruct (ascii_dec c "0") as [-> | Hc].
  - rewrite stripZeros_zero, IH. reflexivity.
  - now rewrite stripZeros_other.
Qed.

Lemma stripZeros_allHex (d : string) : allHex d = true -> allHex (utils.stripZeros d) = true.
Proof.
  induction d as [|c d IH]; [reflexivity|]. intros H.
  destruct (ascii_dec c "0") as [-> | Hc].
  - rewrite stripZeros_zero. apply IH. cbn [allHex] in H. now apply andb_prop in H.
  - now rewrite stripZeros_other.
Qed.

Lemma stripZeros_lower (d : string) :
  toLowerCase d = d -> toLowerCase (utils.stripZeros d) = utils.stripZeros d.
Proof.
  induction d as [|c d IH]; [reflexivity|]. intros H.
  destruct (ascii_dec c "0") as [-> | Hc].
  - rewrite stripZeros_zero. apply IH. cbn [toLowerCase] in H. congruence.
  - now rewrite stripZeros_other.
Qed.

Lemma isHexDigit_lower (c : ascii) : isHexDigit (lowerChar c) = isHexDigit c.
Proof. destruct c as [[] [] [] [] [] [] [] []]; reflexivity. Qed.

Lemma allHex_lower (d : string) : allHex (toLowerCase d) = allHex d.
Proof.
  induction d as [|c d IH]; [reflexivity|].
  cbn [toLowerCase allHex]. now rewrite isHexDigit_lower, IH.
Qed.

(** The loop of [trimLeadingZero] strips the zeros that lead the digits. *)
Lemma trimLeadingZero_loop_digits : forall (fuel : nat) (d : string),
  String.length d <= fuel ->
  utils.trimLeadingZero_loop fuel ("0x" ++ d) = "0x" ++ utils.stripZeros d.
Proof.
  induction fuel as [|f IH]; intros d Hd.
  - destruct d; [reflexivity | simpl in Hd; lia].
  - cbn [utils.trimLeadingZero_loop]. destruct d as [|c d]; [reflexivity|].
    change (startsWith ("0x" ++ String c d) "0x0")
      with (if ascii_dec "0" c then prefix "" d else false).
    destruct (ascii_dec "0" c) as [<- | Hc].
    + assert (prefix "" d = true) as -> by (now destruct d).
      change (sliceFrom 3 ("0x" ++ String "0" d)) with d.
      rewrite stripZeros_zero. apply IH. simpl in Hd. lia.
    + rewrite stripZeros_other by congruence. reflexivity.
Qed.

Lemma trimLeadingZero_loop_other (fuel : nat) (s : string) :
  startsWith s "0x0" = false -> utils.trimLeadingZero_loop fuel s = s.
Proof. intros H. destruct fuel; [reflexivity|]. cbn [utils.trimLeadingZero_loop]. now rewrite H. Qed.

Lemma trimLeadingZero_digits (d : string) :
  utils.trimLeadingZero (Str ("0x" ++ d)) = Ok (Str ("0x" ++ utils.stripZeros d)).
Proof.
  cbn [utils.trimLeadingZero]. rewrite trimLeadingZero_loop_digits; [reflexivity|].
  rewrite length_append. simpl. lia.
Qed.

(** The shape of a stored integer. *)
Lemma isQuantity_inv (q : string) :
  isQuantity q = true ->
  exists d : string,
    q = "0x" ++ d
    /\ (d = "0"
        \/ (d <> "0" /\ allHex d = true /\ d <> "" /\ startsWith d "0" = false
            /\ toLowerCase d = d)).
Proof.
  unfold isQuantity. intros H. apply andb_prop in H as [Hp H].
  apply startsWith_inv in Hp. cbn [String.length] in Hp.
  exists (sliceFrom 2 q). split; [exact Hp|].
  destruct (String.eqb_spec (sliceFrom 2 q) "0") as [E | NE]; [now left | right].
  cbn [orb] in H.
  apply andb_prop in H as [H H4]. apply andb_prop in H as [H H3].
  apply andb_prop in H as [H1 H2].
  apply negb_true_iff in H2, H3. apply String.eqb_neq in H2. apply String.eqb_eq in H4.
  auto.
Qed.

Lemma canonDigits_fixed (d : string) :
  d <> "" -> startsWith d "0" = false -> toLowerCase d = d -> utils.canonDigits d = d.
Proof.
  intros Hne Hz Hl. unfold utils.canonDigits. rewrite Hl, stripZeros_fixed by exact Hz.
  destruct d; congruence.
Qed.

Lemma isHexStrict_0x (d : string) : utils.isHexStrict ("0x" ++ d) = allHex d.
Proof. unfold utils.isHexStrict. now rewrite startsWith_app. Qed.

(** [numberToHex] leaves a stored integer as it is. *)
Lemma numberToHex_quantity (q : string) :
  isQuantity q = true -> utils.numberToHex (Str q) = Ok (Some q).
Proof.
  intros H. apply isQuantity_inv in H as (d & -> & [-> | (_ & Hh & Hne & Hz & Hl)]).
  - reflexivity.
  - cbn [utils.numberToHex]. rewrite isHexStrict_0x, Hh.
    change (sliceFrom 2 ("0x" ++ d)) with d. now rewrite canonDigits_fixed.
Qed.

Lemma even_0x (d : string) :
  Nat.even (String.length ("0x" ++ d)) = Nat.even (String.length d).
Proof. reflexivity. Qed.

Lemma isByteString_0x (d : string) :
  isByteString ("0x" ++ d) = Nat.even (String.length d).
Proof. unfold isByteString. now rewrite startsWith_app, even_0x. Qed.

(** What [Bytes.fromNat] writes for a stored integer is a byte string, and
    [trimLeadingZero] followed by [numberToHex] reads the integer back. *)
Lemma fromNat_quantity (q : string) :
  isQuantity q = true ->
  isByteString (Bytes.fromNat q) = true
  /\ exists t : string,
       utils.trimLeadingZero (Str (Bytes.fromNat q)) = Ok (Str t)
       /\ utils.numberToHex (Str t) = Ok (Some q).
Proof.
  intros H. pose proof (numberToHex_quantity q H) as Hn.
  apply isQuantity_inv in H as (d & -> & [-> | (Hn0 & Hh & Hne & Hz & Hl)]).
  - split; [reflexivity|]. exists "0x". split; reflexivity.
  - unfold Bytes.fromNat.
    destruct (String.eqb_spec ("0x" ++ d) "0x0") as [E | _].
    { exfalso. apply Hn0. cbn in E. congruence. }
    rewrite even_0x.
    destruct (Nat.even (String.length d)) eqn:Hev.
    + split; [now rewrite isByteString_0x|].
      exists ("0x" ++ d). split; [|exact Hn].
      rewrite trimLeadingZero_digits, stripZeros_fixed by exact Hz. reflexivity.
    + change (sliceFrom 2 ("0x" ++ d)) with d.
      change ("0x0" ++ d) with ("0x" ++ String "0" d).
      split.
      * rewrite isByteString_0x. cbn [String.length].
        rewrite Nat.even_succ, <- Nat.negb_even, Hev. reflexivity.
      * exists ("0x" ++ d). split; [|exact Hn].
        rewrite trimLeadingZero_digits, stripZeros_zero, stripZeros_fixed by exact Hz.
        reflexivity.
Qed.

Lemma isQuantity_0x (x : string) :
  isQuantity ("0x" ++ x)
  = ((x =? "0")
     || (allHex x && negb (x =? "") && negb (startsWith x "0") && (toLowerCase x =? x))).
Proof. unfold isQuantity. now rewrite startsWith_app. Qed.

Lemma canonDigits_quantity (d : string) :
  allHex d = true -> isQuantity ("0x" ++ utils.canonDigits d) = true.
Proof.
  intros H. unfold utils.canonDigits.
  pose proof (stripZeros_head (toLowerCase d)) as Hz.
  pose proof (stripZeros_allHex (toLowerCase d)) as Hh. rewrite allHex_lower in Hh.
  pose proof (stripZeros_lower (toLowerCase d) (toLowerCase_idem d)) as Hl.
  destruct (utils.stripZeros (toLowerCase d)) as [|c z] eqn:E; [reflexivity|].
  rewrite isQuantity_0x, Hz, Hh, Hl by exact H.
  rewrite String.eqb_refl. cbn [negb andb]. now rewrite orb_true_r.
Qed.

Lemma of_pos_lower : forall (p : positive) (rest : string),
  toLowerCase (HexString.Raw.of_pos p rest) = HexString.Raw.of_pos p (toLowerCase rest).
Proof.
  fix IH 1. intros p rest.
  do 4 try destruct p as [p|p|]; try reflexivity;
    cbn [HexString.Raw.of_pos]; rewrite IH; reflexivity.
Qed.

Lemma of_pos_head : forall (p : positive) (rest : string),
  startsWith (HexString.Raw.of_pos p rest) "0" = false
  /\ HexString.Raw.of_pos p rest <> "".
Proof.
  fix IH 1. intros p rest.
  do 4 try destruct p as [p|p|];
    try (cbn [HexString.Raw.of_pos]; rewrite startsWith_zero; split; [reflexivity | discriminate]);
    cbn [HexString.Raw.of_pos]; apply IH.
Qed.

Lemma of_N_quantity (n : N) : isQuantity (HexString.of_N n) = true.
Proof.
  destruct n as [|p]; [reflexivity|].
  change (HexString.of_N (N.pos p)) with ("0x" ++ HexString.Raw.of_pos p "").
  rewrite isQuantity_0x.
  destruct (of_pos_head p "") as [Hz Hne].
  rewrite allHex_of_pos, Hz, of_pos_lower. cbn [toLowerCase allHex].
  rewrite String.eqb_refl.
  apply String.eqb_neq in Hne. rewrite Hne. cbn. apply orb_true_r.
Qed.

(** Whatever [numberToHex] stores is the stored form of an integer. *)
Lemma numberToHex_stored (v : value) (f : option string) :
  utils.numberToHex v = Ok f -> quantityField f = true.
Proof.
  destruct v as [| n | s | l]; cbn [utils.numberToHex]; intros H.
  - apply Ok_inj in H. now subst f.
  - apply Ok_inj in H. subst f. apply of_N_quantity.
  - destruct (utils.isHexStrict s) eqn:Hs.
    + apply Ok_inj in H. subst f. cbn [quantityField].
      apply canonDigits_quantity. unfold utils.isHexStrict in Hs.
      now apply andb_prop in Hs.
    + destruct (negb (s =? "") && allDec s); [|discriminate H].
      apply Ok_inj in H. subst f. apply of_N_quantity.
  - discriminate H.
Qed.

(** ** The transaction *)

Lemma addHexPrefix_0x (x : string) : utils.addHexPrefix ("0x" ++ x) = "0x" ++ x.
Proof. unfold utils.addHexPrefix. now rewrite startsWith_app. Qed.

Lemma SignatureData_list_encode (sigs : list SignatureData) :
  SignatureData_list (map SignatureData_encode sigs) = Ok sigs.
Proof.
  induction sigs as [|[v r s] sigs IH]; [reflexivity|].
  cbn [map SignatureData_list SignatureData_encode SignatureData_of sig_v sig_r sig_s bind].
  now rewrite IH.
Qed.

(** The signature list of an encoding is read back in its order. *)
Lemma refineSignatures_encode (sigs : list SignatureData) :
  refineSignatures (Arr (map SignatureData_encode sigs)) = Ok sigs.
Proof.
  destruct sigs as [|sig sigs]; [reflexivity|].
  pose proof (SignatureData_list_encode (sig :: sigs)) as H.
  cbn [map] in *. unfold refineSignatures. exact H.
Qed.

Lemma isAddress_byteString (a : string) :
  utils.isAddress a = true -> isByteString a = true.
Proof.
  unfold utils.isAddress, isByteString. intros H.
  apply andb_prop in H as [H _]. apply andb_prop in H as [Hp Hl].
  apply Nat.eqb_eq in Hl. now rewrite Hp, Hl.
Qed.

Lemma signatures_even (sigs : list SignatureData) :
  forallb signatureOk sigs = true ->
  forallb evenTree (map SignatureData_encode sigs) = true.
Proof.
  induction sigs as [|[v r s] sigs IH]; [reflexivity|].
  cbn [forallb map]. intros H. apply andb_prop in H as [H1 H2].
  rewrite (IH H2), andb_true_r. unfold signatureOk in H1. cbn [sig_v sig_r sig_s] in H1.
  apply andb_prop in H1 as [H1 Hs]. apply andb_prop in H1 as [Hv Hr].
  cbn [SignatureData_encode sig_v sig_r sig_s evenTree forallb].
  now rewrite Hv, Hr, Hs.
Qed.

Lemma isByteString_truthy (s : string) : isByteString s = true -> truthy (Str s) = true.
Proof.
  unfold isByteString. intros H. apply andb_prop in H as [H _].
  destruct s; [discriminate H | reflexivity].
Qed.

Lemma addHexPrefix_tag (d : string) :
  utils.addHexPrefix (TxTypeChainDataAnchoring ++ d) = TxTypeChainDataAnchoring ++ d.
Proof. apply (addHexPrefix_0x ("48" ++ d)). Qed.

Lemma typeDettached_tag (d : string) :
  "0x" ++ sliceFrom 4 (TxTypeChainDataAnchoring ++ d) = "0x" ++ d.
Proof. reflexivity. Qed.

(** The round trip on a transaction whose fields are as [validTx] asks:
    [getRLPEncoding] gives a raw transaction, and [decode] of it (a
    JavaScript string, shorter than 2^64 characters) gives a transaction
    with the nonce, gasPrice, gas, from, input and signature list of [tx]. *)
Lemma roundtrip_validTx (toHex : value -> string) (tx : ChainDataAnchoring) :
  validTx toHex tx = true ->
  exists raw : string,
    getRLPEncoding tx = Ok raw
    /\ ((N.of_nat (String.length raw) < 2 ^ 64)%N ->
        exists tx' : ChainDataAnchoring,
          decode toHex raw = Ok tx'
          /\ _nonce tx' = _nonce tx /\ _gasPrice tx' = _gasPrice tx
          /\ _gas tx' = _gas tx /\ _from tx' = _from tx
          /\ _input tx' = _input tx /\ _signatures tx' = _signatures tx).
Proof.
  intros Hv. unfold validTx in Hv.
  destruct tx as [[a|] [n|] [g|] [gp|] [c|] [i|] sigs];
    cbn [_from _nonce _gas _gasPrice _chainId _input _signatures] in Hv;
    try discriminate Hv.
  apply andb_prop in Hv as [Hv Hsigs]. apply andb_prop in Hv as [Hv Hto].
  apply andb_prop in Hv as [Hv Hhex]. apply andb_prop in Hv as [Hv Hbi].
  apply andb_prop in Hv as [Hv Hlow]. apply andb_prop in Hv as [Hv Haddr].
  apply andb_prop in Hv as [Hv Hqc]. apply andb_prop in Hv as [Hv Hqgp].
  apply andb_prop in Hv as [Hqn Hqg].
  apply String.eqb_eq in Hlow, Hto.
  destruct (fromNat_quantity n Hqn) as (Bn & tn & Tn & Nn).
  destruct (fromNat_quantity g Hqg) as (Bg & tg & Tg & Ng).
  destruct (fromNat_quantity gp Hqgp) as (Bgp & tgp & Tgp & Ngp).
  pose proof (isAddress_byteString a Haddr) as Ba.
  pose proof (signatures_even sigs Hsigs) as Bs.
  set (T := Arr [Str (Bytes.fromNat n); Str (Bytes.fromNat gp); Str (Bytes.fromNat g);
                 Str a; Str i; Arr (map SignatureData_encode sigs)]).
  assert (HT : evenTree T = true).
  { unfold T. cbn [evenTree forallb]. now rewrite Bn, Bgp, Bg, Ba, Hbi, Bs. }
  destruct (encode_total T HT) as (enc & Henc & Hpre).
  apply startsWith_inv in Hpre. cbn [String.length] in Hpre.
  set (d := sliceFrom 2 enc) in *.
  exists (TxTypeChainDataAnchoring ++ d).
  split.
  - unfold getRLPEncoding, validateOptionalValues, AbstractTransaction.validateOptionalValues.
    cbn [_from _nonce _gas _gasPrice _chainId _input _signatures isNot bind
         fromNat_field toLowerCase_field of_field].
    rewrite Hlow. fold T. rewrite Henc. reflexivity.
  - intros Hlen.
    exists (mkTx (Some a) (Some n) (Some g) (Some gp) None (Some i) sigs).
    split; [|cbn; repeat split; reflexivity].
    unfold decode, _decode. cbv zeta.
    rewrite addHexPrefix_tag, startsWith_app, typeDettached_tag. cbn [negb].
    rewrite <- Hpre.
    assert (Hlen' : (N.of_nat (String.length enc) < 2 ^ 64)%N).
    { rewrite Hpre. unfold TxTypeChainDataAnchoring in Hlen.
      rewrite length_append in Hlen |- *. cbn [String.length] in Hlen |- *. lia. }
    rewrite (decode_encode T enc (evenTree_byteTree T HT) Henc Hlen').
    unfold T at 1.
    cbn [bind iterate element nth]. rewrite Tn, Tgp, Tg. cbn [bind].
    unfold new. cbn [bind]. unfold AbstractTransaction.new.
    cbn [o_from o_nonce o_gas o_gasPrice o_chainId o_input o_data o_signatures].
    unfold AbstractTransaction.set_from, AbstractTransaction.set_number.
    rewrite Hlow, Haddr, Nn, Ng. cbn [bind utils.numberToHex].
    rewrite refineSignatures_encode. cbn [bind].
    rewrite (isByteString_truthy i Hbi). cbn [truthy andb].
    unfold set_input, js_or. rewrite (isByteString_truthy i Hbi), Hhex. cbn [negb orb bind].
    unfold set_gasPrice. rewrite Ngp. cbn [bind]. unfold with_input, with_gasPrice.
    cbn [_from _nonce _gas _gasPrice _chainId _input _signatures].
    rewrite Hto, (isByteString_truthy i Hbi). reflexivity.
Qed.

(** C10 -- Two transactions that differ only in the letter case of the sender
    address have the same [getRLPEncoding] and the same
    [getCommonRLPEncodingForSignature]: both lower-case [from] when they
    encode. *)
Theorem encoding_from_case (tx : ChainDataAnchoring) (a a' : string) :
  toLowerCase a = toLowerCase a' ->
  getRLPEncoding (with_from tx (Some a)) = getRLPEncoding (with_from tx (Some a'))
  /\ getCommonRLPEncodingForSignature (with_from tx (Some a))
     = getCommonRLPEncodingForSignature (with_from tx (Some a')).
Proof.
  intros H.
  unfold getRLPEncoding, getCommonRLPEncodingForSignature, validateOptionalValues,
    AbstractTransaction.validateOptionalValues, with_from.
  cbn [_from _nonce _gas _gasPrice _chainId _input _signatures toLowerCase_field].
  rewrite H. split; reflexivity.
Qed.

Lemma encoding_from_case_witness :
  toLowerCase "0xA94F5374FCE5EDBC8E2A8697C15331677E6EBF0B"
  = toLowerCase "0xa94f5374fce5edbc8e2a8697c15331677e6ebf0b"
  /\ (getRLPEncoding (with_from tx_sample (Some "0xA94F5374FCE5EDBC8E2A8697C15331677E6EBF0B"))
      = getRLPEncoding (with_from tx_sample (Some "0xa94f5374fce5edbc8e2a8697c15331677e6ebf0b"))
      /\ getCommonRLPEncodingForSignature
           (with_from tx_sample (Some "0xA94F5374FCE5EDBC8E2A8697C15331677E6EBF0B"))
         = getCommonRLPEncodingForSignature
             (with_from tx_sample (Some "0xa94f5374fce5edbc8e2a8697c15331677e6ebf0b"))).
Proof.
  split; [reflexivity|].
  apply (encoding_from_case tx_sample). reflexivity.
Defined.

(** ** Tag dispatch *)

Lemma tagFree_Ok {A : Type} (a : A) : tagFree (Ok a).
Proof. discriminate. Qed.

Lemma tagFree_bind {A B : Type} (r : result A) (k : A -> result B) :
  tagFree r -> (forall a, tagFree (k a)) -> tagFree (bind r k).
Proof.
  intros Hr Hk. destruct r as [a|e]; cbn [bind]; [apply Hk|].
  unfold tagFree in *. congruence.
Qed.

Ltac tag_free :=
  repeat first
    [ apply tagFree_Ok
    | discriminate
    | apply tagFree_bind; [|intros]
    | match goal with
      | |- tagFree (let '(_, _) := ?p in _) => destruct p
      | |- tagFree (match ?x with _ => _ end) => destruct x
      | |- tagFree (Throw _) => unfold tagFree
      end ].

Lemma parseLength_tagFree (hex : string) (i : nat) : tagFree (RLP.parseLength hex i).
Proof. unfold RLP.parseLength. tag_free. Qed.

Lemma parseTree_tagFree : forall (fuel : nat),
  (forall hex i, tagFree (RLP.parseTree fuel hex i))
  /\ (forall hex lim i, tagFree (RLP.parseItems fuel hex lim i)).
Proof.
  induction fuel as [|f [IHt IHi]]; split; intros; cbn [RLP.parseTree RLP.parseItems];
    try discriminate.
  - destruct (String.length hex <=? i)%nat; [discriminate|].
    cbv zeta. destruct (slice i (i + 2) hex <? "80"); [apply tagFree_Ok|].
    destruct (slice i (i + 2) hex <? "c0").
    + unfold RLP.parseHex. apply tagFree_bind; [apply parseLength_tagFree|].
      intros [len i1]. apply tagFree_Ok.
    + apply tagFree_bind; [apply parseLength_tagFree|]. intros [len i1].
      apply tagFree_bind; [apply IHi|]. intros [l i2]. apply tagFree_Ok.
  - destruct (i <? lim)%nat; [|apply tagFree_Ok].
    apply tagFree_bind; [apply IHt|]. intros [t i1].
    apply tagFree_bind; [apply IHi|]. intros [l i2]. apply tagFree_Ok.
Qed.

Lemma RLP_decode_tagFree (hex : string) : tagFree (RLP.decode hex).
Proof.
  unfold RLP.decode.
  pose proof (proj1 (parseTree_tagFree (S (String.length hex))) hex 2) as H.
  destruct (RLP.parseTree (S (String.length hex)) hex 2) as [[t i]|e];
    [apply tagFree_Ok|].
  destruct e; try discriminate. exfalso. now apply H.
Qed.

Lemma numberToHex_tagFree (v : value) : tagFree (utils.numberToHex v).
Proof. unfold utils.numberToHex. tag_free. Qed.

Lemma trimLeadingZero_tagFree (v : value) : tagFree (utils.trimLeadingZero v).
Proof. unfold utils.trimLeadingZero. tag_free. Qed.

Lemma SignatureData_list_tagFree (l : list value) : tagFree (SignatureData_list l).
Proof.
  induction l as [|t l IH]; cbn [SignatureData_list]; [apply tagFree_Ok|].
  apply tagFree_bind; [unfold SignatureData_of; tag_free|]. intros sig.
  apply tagFree_bind; [exact IH|]. intros. apply tagFree_Ok.
Qed.

Lemma refineSignatures_tagFree (v : value) : tagFree (refineSignatures v).
Proof.
  unfold refineSignatures.
  destruct v as [| n | s | l]; try discriminate.
  destruct l as [|t l]; [apply tagFree_Ok|].
  destruct t; try apply SignatureData_list_tagFree.
  apply tagFree_bind; [unfold SignatureData_of; tag_free|]. intros. apply tagFree_Ok.
Qed.

Lemma base_new_tagFree (o : CreateTransactionObject) : tagFree (AbstractTransaction.new o).
Proof.
  unfold AbstractTransaction.new.
  apply tagFree_bind; [unfold AbstractTransaction.set_from; tag_free|]. intros.
  apply tagFree_bind; [apply numberToHex_tagFree|]. intros.
  apply tagFree_bind; [apply numberToHex_tagFree|]. intros.
  apply tagFree_bind; [apply numberToHex_tagFree|]. intros.
  apply tagFree_bind; [apply refineSignatures_tagFree|]. intros. apply tagFree_Ok.
Qed.

(** Construction from a field object never reports a wrong type tag. *)
Lemma new_object_tagFree (toHex : value -> string) (o : CreateTransactionObject) :
  tagFree (new toHex (FromObject o)).
Proof.
  unfold new. cbn [bind].
  apply tagFree_bind; [apply base_new_tagFree|]. intros this.
  destruct (truthy (o_input o) && truthy (o_data o)); [discriminate|].
  apply tagFree_bind.
  - unfold set_input. destruct (_ || _); [discriminate | apply tagFree_Ok].
  - intros this'. unfold set_gasPrice.
    destruct (o_gasPrice o); try apply tagFree_Ok;
      (apply tagFree_bind; [apply numberToHex_tagFree | intros; apply tagFree_Ok]).
Qed.

Lemma startsWith_takeStr (s p : string) :
  startsWith s p = (takeStr (String.length p) s =? p).
Proof.
  unfold startsWith. revert s. induction p as [|c p IH]; intros s.
  - cbn [String.length takeStr prefix]. now destruct s.
  - destruct s as [|d s]; [reflexivity|].
    cbn [String.length takeStr prefix String.eqb].
    destruct (ascii_dec c d) as [-> | Hn].
    + rewrite Ascii.eqb_refl. apply IH.
    + apply Ascii.eqb_neq in Hn. rewrite Ascii.eqb_sym, Hn. reflexivity.
Qed.

(** C4 -- Tag dispatch.  [decode] fails with UnsupportedTypeTagError exactly
    when the leading bytes of the input (its first four characters, "0x" and
    the tag byte) differ from the type tag of ChainDataAnchoring; what
    follows the tag plays no part in it. *)
Theorem decode_tag_dispatch (toHex : value -> string) (rlpEncoded : string) :
  decode toHex rlpEncoded = Throw UnsupportedTypeTagError
  <-> takeStr 4 (utils.addHexPrefix rlpEncoded) <> TxTypeChainDataAnchoring.
Proof.
  pose proof (startsWith_takeStr (utils.addHexPrefix rlpEncoded) TxTypeChainDataAnchoring) as Hs.
  cbn [String.length TxTypeChainDataAnchoring] in Hs.
  unfold decode, _decode. cbv zeta. rewrite Hs.
  destruct (String.eqb_spec (takeStr 4 (utils.addHexPrefix rlpEncoded)) TxTypeChainDataAnchoring)
    as [E | NE]; cbn [negb bind].
  - split; [|contradiction]. intros H. exfalso. revert H.
    apply tagFree_bind; [|intros; apply new_object_tagFree].
    apply tagFree_bind; [apply RLP_decode_tagFree|]. intros decoded.
    apply tagFree_bind; [unfold iterate; tag_free|]. intros fields.
    apply tagFree_bind; [apply trimLeadingZero_tagFree|]. intros nonce.
    apply tagFree_bind; [apply trimLeadingZero_tagFree|]. intros gasPrice.
    apply tagFree_bind; [apply trimLeadingZero_tagFree|]. intros gas.
    apply tagFree_Ok.
  - split; [intros _; exact NE | reflexivity].
Qed.

(** ** The [input] field and construction *)

Lemma toHex_sample_contract : toHexContract toHex_sample.
Proof.
  intros [| n | s | l] H; try discriminate H.
  - cbn [toHex_sample]. destruct n as [|p]; [reflexivity|].
    change (HexString.of_N (N.pos p)) with ("0x" ++ HexString.Raw.of_pos p "").
    cbn [utils.isHex]. rewrite startsWith_app. cbn [orb].
    change (sliceFrom 2 ("0x" ++ HexString.Raw.of_pos p "")) with (HexString.Raw.of_pos p "").
    now rewrite allHex_of_pos.
  - cbn [toHex_sample utils.isHex] in *.
    destruct (startsWith s "0x" || startsWith s "0X") eqn:E1.
    + now rewrite E1.
    + destruct (startsWith s "-0x" || startsWith s "-0X") eqn:E2.
      * now rewrite E1, E2.
      * rewrite startsWith_app. cbn [orb]. exact H.
Qed.

(** C6 -- A value that is not a valid hex string is rejected by the [input]
    setter itself, at the assignment; and when the assignment succeeds the
    stored value is a valid hex string ([utils.toHex] converting valid hex
    to valid hex). *)
Theorem set_input_hex (toHex : value -> string) (input : value) (this : ChainDataAnchoring) :
  toHexContract toHex ->
  (utils.isHex input = false ->
   set_input toHex input this = Throw (InvalidFieldFormatError "input"))
  /\ (forall this' : ChainDataAnchoring,
        set_input toHex input this = Ok this' ->
        exists s : string, _input this' = Some s /\ utils.isHex (Str s) = true).
Proof.
  intros Hc. unfold set_input. split.
  - intros ->. now rewrite orb_true_r.
  - intros this'. destruct (truthy input); cbn [negb orb]; [|discriminate].
    destruct (utils.isHex input) eqn:Hh; cbn [negb]; [|discriminate].
    intros H. apply Ok_inj in H. subst this'. exists (toHex input).
    split; [reflexivity | now apply Hc].
Qed.

Lemma set_input_hex_witness :
  toHexContract toHex_sample
  /\ ((utils.isHex (Str "0x12g4") = false ->
       set_input toHex_sample (Str "0x12g4") tx_unsigned = Throw (InvalidFieldFormatError "input"))
      /\ (forall this' : ChainDataAnchoring,
            set_input toHex_sample (Str "0x12g4") tx_unsigned = Ok this' ->
            exists s : string, _input this' = Some s /\ utils.isHex (Str s) = true)).
Proof.
  split; [exact toHex_sample_contract|].
  apply (set_input_hex toHex_sample (Str "0x12g4") tx_unsigned). exact toHex_sample_contract.
Defined.

(** C9, as the code has it -- A field object whose payload [input || data]
    is absent or falsy (neither [input] nor [data], or an empty [input] with
    nothing in [data]) cannot be constructed from, and every object the
    constructor returns has an [input]: the conversion of a truthy valid hex
    value. *)
Theorem new_requires_input (toHex : value -> string) (createTxObj : CreateTransactionObject) :
  (truthy (js_or (o_input createTxObj) (o_data createTxObj)) = false ->
   exists e : error, new toHex (FromObject createTxObj) = Throw e)
  /\ (forall this : ChainDataAnchoring,
        new toHex (FromObject createTxObj) = Ok this ->
        exists v : value,
          truthy v = true /\ utils.isHex v = true /\ _input this = Some (toHex v)).
Proof.
  unfold new. cbn [bind]. split.
  - intros Hf.
    destruct (AbstractTransaction.new createTxObj) as [this|e]; cbn [bind]; [|eauto].
    destruct (truthy (o_input createTxObj) && truthy (o_data createTxObj)); [eauto|].
    unfold set_input. rewrite Hf. cbn [negb orb bind]. eauto.
  - intros this.
    destruct (AbstractTransaction.new createTxObj) as [this0|e]; cbn [bind]; [|discriminate].
    destruct (truthy (o_input createTxObj) && truthy (o_data createTxObj)); [discriminate|].
    unfold set_input.
    set (v := js_or (o_input createTxObj) (o_data createTxObj)).
    destruct (truthy v) eqn:Ht; cbn [negb orb bind]; [|discriminate].
    destruct (utils.isHex v) eqn:Hh; cbn [negb bind]; [|discriminate].
    intros H. exists v. split; [exact Ht|]. split; [exact Hh|].
    destruct (o_gasPrice createTxObj); unfold set_gasPrice in H;
      try (apply Ok_inj in H; subst this; reflexivity);
      (apply bind_Ok in H as (p & _ & H); apply Ok_inj in H; subst this; reflexivity).
Qed.

Lemma new_requires_input_witness :
  truthy (js_or (o_input (obj_sample (Str "") Undefined))
                (o_data (obj_sample (Str "") Undefined))) = false
  /\ exists e : error,
       new toHex_sample (FromObject (obj_sample (Str "") Undefined)) = Throw e.
Proof.
  split; [reflexivity|].
  apply (new_requires_input toHex_sample (obj_sample (Str "") Undefined)). reflexivity.
Defined.

(** C9, as stated, fails where it speaks of an empty input: a field object
    whose [input] is empty and whose [data] is not constructs a transaction,
    the data being taken as the input. *)
Lemma new_requires_input_counterexample :
  truthy (o_input (obj_sample (Str "") (Str "0x010203"))) = false
  /\ new toHex_sample (FromObject (obj_sample (Str "") (Str "0x010203")))
     = Ok {| _from := Some "0xa94f5374fce5edbc8e2a8697c15331677e6ebf0b";
             _nonce := Some "0x4d2";
             _gas := Some "0xf4240";
             _gasPrice := Some "0x19";
             _chainId := Some "0x1";
             _input := Some "0x010203";
             _signatures := [] |}.
Proof. split; reflexivity. Qed.

(** C5, as the code has it -- When [input] and [data] are both given with a
    truthy (non-empty) value, construction fails, and it fails with
    ConflictingFieldError whenever the constructor of the envelope, which
    runs first, accepts the common fields. *)
Theorem new_conflict (toHex : value -> string) (createTxObj : CreateTransactionObject) :
  truthy (o_input createTxObj) = true ->
  truthy (o_data createTxObj) = true ->
  (exists e : error, new toHex (FromObject createTxObj) = Throw e)
  /\ (forall this : ChainDataAnchoring,
        AbstractTransaction.new createTxObj = Ok this ->
        new toHex (FromObject createTxObj) = Throw ConflictingFieldError).
Proof.
  intros Hi Hd. unfold new. cbn [bind]. rewrite Hi, Hd. cbn [andb]. split.
  - destruct (AbstractTransaction.new createTxObj); cbn [bind]; eauto.
  - intros this ->. reflexivity.
Qed.

Lemma new_conflict_witness :
  truthy (o_input (obj_sample (Str "0x01") (Str "0x02"))) = true
  /\ truthy (o_data (obj_sample (Str "0x01") (Str "0x02"))) = true
  /\ new toHex_sample (FromObject (obj_sample (Str "0x01") (Str "0x02")))
     = Throw ConflictingFieldError.
Proof.
  split; [reflexivity|]. split; [reflexivity|].
  destruct (new_conflict toHex_sample (obj_sample (Str "0x01") (Str "0x02"))
              eq_refl eq_refl) as [_ H].
  exact (H _ eq_refl).
Defined.

(** C5, as stated, fails: a field object that supplies both [input] (empty)
    and [data] constructs a transaction, whose input is the data. *)
Lemma new_conflict_counterexample :
  o_input (obj_sample (Str "") (Str "0xabcd")) <> Undefined
  /\ o_data (obj_sample (Str "") (Str "0xabcd")) <> Undefined
  /\ new toHex_sample (FromObject (obj_sample (Str "") (Str "0xabcd")))
     = Ok {| _from := Some "0xa94f5374fce5edbc8e2a8697c15331677e6ebf0b";
             _nonce := Some "0x4d2";
             _gas := Some "0xf4240";
             _gasPrice := Some "0x19";
             _chainId := Some "0x1";
             _input := Some "0xabcd";
             _signatures := [] |}.
Proof. split; [discriminate|]. split; [discriminate|]. reflexivity. Qed.

(** ** Encoding *)

(** C3, as the code has it -- [getRLPEncoding] fails when nonce, gas,
    gasPrice or chainId is unset; when they are set it is the type tag in
    front of RLP([nonce, gasPrice, gas, from, input, signatures]), whatever
    the signature list holds. *)
Theorem getRLPEncoding_composition (this : ChainDataAnchoring) :
  (isNot (_nonce this) || isNot (_gas this) || isNot (_gasPrice this)
   || isNot (_chainId this) = true ->
   exists field : string, getRLPEncoding this = Throw (MissingFieldError field))
  /\ (forall nonce gas gasPrice chainId from input : string,
        _nonce this = Some nonce -> _gas this = Some gas ->
        _gasPrice this = Some gasPrice -> _chainId this = Some chainId ->
        _from this = Some from -> _input this = Some input ->
        getRLPEncoding this
        = (encoded <- RLP.encode
                        (Arr [Str (Bytes.fromNat nonce); Str (Bytes.fromNat gasPrice);
                              Str (Bytes.fromNat gas); Str (toLowerCase from); Str input;
                              Arr (map SignatureData_encode (_signatures this))]) ;;
           Ok (TxTypeChainDataAnchoring ++ sliceFrom 2 encoded))).
Proof.
  unfold getRLPEncoding, validateOptionalValues, AbstractTransaction.validateOptionalValues.
  split.
  - intros H.
    destruct (_nonce this); cbn [isNot bind orb] in *; [|eauto].
    destruct (_gas this); cbn [isNot bind orb] in *; [|eauto].
    destruct (_gasPrice this); cbn [isNot bind orb] in *; [|eauto].
    destruct (_chainId this); cbn [isNot bind orb] in *; [discriminate H | eauto].
  - intros nonce gas gasPrice chainId from input -> -> -> -> -> ->. reflexivity.
Qed.

Lemma getRLPEncoding_composition_witness :
  isNot (_nonce (with_nonce tx_sample None)) || isNot (_gas (with_nonce tx_sample None))
  || isNot (_gasPrice (with_nonce tx_sample None))
  || isNot (_chainId (with_nonce tx_sample None)) = true
  /\ exists field : string,
       getRLPEncoding (with_nonce tx_sample None) = Throw (MissingFieldError field).
Proof.
  split; [reflexivity|].
  apply (getRLPEncoding_composition (with_nonce tx_sample None)). reflexivity.
Defined.

(** C3, as stated, fails: with every field set and an empty signature list
    [getRLPEncoding] succeeds, and the encoding ends with the empty list. *)
Lemma getRLPEncoding_unsigned_counterexample :
  _signatures tx_unsigned = []
  /\ getRLPEncoding tx_unsigned
     = Ok "0x48f8428204d219830f424094a94f5374fce5edbc8e2a8697c15331677e6ebf0ba3f8a6a00000000000000000000000000000000000000000000000000000000000000000c0".
Proof. split; reflexivity. Qed.

(** ** Integers read from the wire *)

Lemma lowerChar_zero (c : ascii) : lowerChar c = "0"%char -> c = "0"%char.
Proof.
  destruct c as [[] [] [] [] [] [] [] []]; intros H; vm_compute in H;
    first [reflexivity | discriminate H].
Qed.

Lemma stripZeros_toLowerCase (d : string) :
  utils.stripZeros (toLowerCase d) = toLowerCase (utils.stripZeros d).
Proof.
  induction d as [|c d IH]; [reflexivity|].
  destruct (ascii_dec c "0") as [-> | Hc].
  - cbn [toLowerCase]. change (lowerChar "0") with "0"%char.
    rewrite !stripZeros_zero. exact IH.
  - rewrite (stripZeros_other c d Hc). cbn [toLowerCase].
    apply stripZeros_other. intros E. apply Hc. now apply lowerChar_zero.
Qed.

Lemma stripZeros_idem (d : string) :
  utils.stripZeros (utils.stripZeros d) = utils.stripZeros d.
Proof. apply stripZeros_fixed, stripZeros_head. Qed.

Lemma canonDigits_stripZeros (d : string) :
  utils.canonDigits (utils.stripZeros d) = utils.canonDigits d.
Proof.
  unfold utils.canonDigits.
  now rewrite <- !stripZeros_toLowerCase, stripZeros_idem.
Qed.

Lemma ascii_to_digit_lower (c : ascii) :
  HexString.ascii_to_digit (lowerChar c) = HexString.ascii_to_digit c.
Proof. destruct c as [[] [] [] [] [] [] [] []]; reflexivity. Qed.

Lemma to_N_lower : forall (s : string) (acc : N),
  HexString.Raw.to_N (toLowerCase s) acc = HexString.Raw.to_N s acc.
Proof.
  induction s as [|c s IH]; intros acc; [reflexivity|].
  cbn [toLowerCase HexString.Raw.to_N]. now rewrite ascii_to_digit_lower, IH.
Qed.

(** The canonical digits denote the number the wire digits denote. *)
Lemma canonDigits_value (d : string) :
  HexString.to_N ("0x" ++ utils.canonDigits d) = HexString.Raw.to_N d 0.
Proof.
  change (HexString.to_N ("0x" ++ utils.canonDigits d))
    with (HexString.Raw.to_N (utils.canonDigits d) 0).
  unfold utils.canonDigits.
  pose proof (stripZeros_value (toLowerCase d)) as H. rewrite to_N_lower in H.
  destruct (utils.stripZeros (toLowerCase d)); [now rewrite <- H | exact H].
Qed.

Lemma numberToHex_digits (d : string) :
  allHex d = true ->
  utils.numberToHex (Str ("0x" ++ utils.stripZeros d)) = Ok (Some ("0x" ++ utils.canonDigits d)).
Proof.
  intros H. cbn [utils.numberToHex].
  rewrite isHexStrict_0x, (stripZeros_allHex d H).
  change (sliceFrom 2 ("0x" ++ utils.stripZeros d)) with (utils.stripZeros d).
  now rewrite canonDigits_stripZeros.
Qed.

(** what the constructor stores in the integer fields *)
Lemma new_fields (toHex : value -> string) (o : CreateTransactionObject)
    (this : ChainDataAnchoring) :
  new toHex (FromObject o) = Ok this ->
  utils.numberToHex (o_nonce o) = Ok (_nonce this)
  /\ utils.numberToHex (o_gas o) = Ok (_gas this)
  /\ utils.numberToHex (o_chainId o) = Ok (_chainId this)
  /\ utils.numberToHex (o_gasPrice o) = Ok (_gasPrice this).
Proof.
  unfold new. cbn [bind]. intros H.
  apply bind_Ok in H as (this0 & Hb & H).
  unfold AbstractTransaction.new, AbstractTransaction.set_number in Hb.
  apply bind_Ok in Hb as (from & _ & Hb). apply bind_Ok in Hb as (nonce & Hn & Hb).
  apply bind_Ok in Hb as (gas & Hg & Hb). apply bind_Ok in Hb as (chainId & Hc & Hb).
  apply bind_Ok in Hb as (sigs & _ & Hb). apply Ok_inj in Hb. subst this0.
  destruct (truthy (o_input o) && truthy (o_data o)); [discriminate H|].
  apply bind_Ok in H as (this1 & Hi & H).
  unfold set_input in Hi. destruct (_ || _); [discriminate Hi|].
  apply Ok_inj in Hi. subst this1. unfold set_gasPrice in H.
  destruct (o_gasPrice o) eqn:Hgp;
    [ apply Ok_inj in H; subst this; cbn; auto
    | apply bind_Ok in H as (p & Hp & H); apply Ok_inj in H; subst this; cbn; auto .. ].
Qed.

(** The constructor establishes the invariant of the integer fields. *)
Lemma new_storedOk (toHex : value -> string) (arg : CreateArg) (this : ChainDataAnchoring) :
  new toHex arg = Ok this -> storedOk this = true.
Proof.
  intros H.
  assert (Ho : exists o, new toHex (FromObject o) = Ok this).
  { destruct arg as [s|o]; [|eauto]. unfold new in H.
    apply bind_Ok in H as (o & _ & H). exists o. exact H. }
  destruct Ho as (o & Ho). apply new_fields in Ho as (Hn & Hg & Hc & Hgp).
  unfold storedOk.
  now rewrite (numberToHex_stored _ _ Hn), (numberToHex_stored _ _ Hg),
    (numberToHex_stored _ _ Hc), (numberToHex_stored _ _ Hgp).
Qed.

(** C7 -- Integers with leading zero bytes.  When the RLP list of a raw
    transaction holds the hexadecimal strings [dn], [dgp], [dg] for nonce,
    gasPrice and gas, [_decode] returns them with their leading zeros
    stripped.  When the rest of the list is acceptable (an address for the
    sender, a non-empty valid hex input, well-formed signatures), [decode]
    returns a transaction, and it stores each of the three as the canonical
    integer of the same value: "0x" and lower-case digits without a leading
    zero ("0x0" for zero), whether or not the wire form was minimal; whatever
    the rest of the list, no other value is stored for them. *)
Theorem decode_normalizes_integers (toHex : value -> string) (rlpEncoded : string)
    (fields : list value) (dn dgp dg : string) :
  startsWith (utils.addHexPrefix rlpEncoded) TxTypeChainDataAnchoring = true ->
  RLP.decode ("0x" ++ sliceFrom 4 (utils.addHexPrefix rlpEncoded)) = Ok (Arr fields) ->
  element fields 0 = Str ("0x" ++ dn) ->
  element fields 1 = Str ("0x" ++ dgp) ->
  element fields 2 = Str ("0x" ++ dg) ->
  allHex dn = true -> allHex dgp = true -> allHex dg = true ->
  (exists createTxObj : CreateTransactionObject,
     _decode rlpEncoded = Ok createTxObj
     /\ o_nonce createTxObj = Str ("0x" ++ utils.stripZeros dn)
     /\ o_gasPrice createTxObj = Str ("0x" ++ utils.stripZeros dgp)
     /\ o_gas createTxObj = Str ("0x" ++ utils.stripZeros dg))
  /\ (forall (a : string) (sigs : list SignatureData),
        element fields 3 = Str a ->
        utils.isAddress (toLowerCase a) = true ->
        truthy (element fields 4) = true ->
        utils.isHex (element fields 4) = true ->
        refineSignatures (element fields 5) = Ok sigs ->
        decode toHex rlpEncoded
        = Ok {| _from := Some (toLowerCase a);
                _nonce := Some ("0x" ++ utils.canonDigits dn);
                _gas := Some ("0x" ++ utils.canonDigits dg);
                _gasPrice := Some ("0x" ++ utils.canonDigits dgp);
                _chainId := None;
                _input := Some (toHex (element fields 4));
                _signatures := sigs |})
  /\ (forall this : ChainDataAnchoring,
        decode toHex rlpEncoded = Ok this ->
        _nonce this = Some ("0x" ++ utils.canonDigits dn)
        /\ _gasPrice this = Some ("0x" ++ utils.canonDigits dgp)
        /\ _gas this = Some ("0x" ++ utils.canonDigits dg))
  /\ (isQuantity ("0x" ++ utils.canonDigits dn) = true
      /\ isQuantity ("0x" ++ utils.canonDigits dgp) = true
      /\ isQuantity ("0x" ++ utils.canonDigits dg) = true)
  /\ (HexString.to_N ("0x" ++ utils.canonDigits dn) = HexString.Raw.to_N dn 0
      /\ HexString.to_N ("0x" ++ utils.canonDigits dgp) = HexString.Raw.to_N dgp 0
      /\ HexString.to_N ("0x" ++ utils.canonDigits dg) = HexString.Raw.to_N dg 0).
Proof.
  intros Htag Hdec H0 H1 H2 Hn Hgp Hg.
  assert (Hd : _decode rlpEncoded
               = Ok {| o_from := element fields 3;
                       o_nonce := Str ("0x" ++ utils.stripZeros dn);
                       o_gas := Str ("0x" ++ utils.stripZeros dg);
                       o_gasPrice := Str ("0x" ++ utils.stripZeros dgp);
                       o_chainId := Undefined;
                       o_input := element fields 4;
                       o_data := Undefined;
                       o_signatures := element fields 5 |}).
  { unfold _decode. cbv zeta. rewrite Htag, Hdec. cbn [negb bind iterate].
    rewrite H0, H1, H2, !trimLeadingZero_digits. reflexivity. }
  split; [eexists; split; [exact Hd | cbn; auto]|].
  split.
  { intros a sigs Ha Haddr Ht Hh Hsig.
    unfold decode. rewrite Hd. cbn [bind].
    unfold new. cbn [bind]. unfold AbstractTransaction.new.
    cbn [o_from o_nonce o_gas o_gasPrice o_chainId o_input o_data o_signatures].
    rewrite Ha. unfold AbstractTransaction.set_from, AbstractTransaction.set_number.
    rewrite Haddr, !numberToHex_digits by assumption. cbn [bind utils.numberToHex].
    rewrite Hsig. cbn [bind]. rewrite Ht. cbn [truthy andb].
    unfold js_or. rewrite Ht. unfold set_input. rewrite Ht, Hh. cbn [negb orb bind].
    unfold set_gasPrice. rewrite numberToHex_digits by assumption. reflexivity. }
  split.
  - intros this H. unfold decode in H. rewrite Hd in H. cbn [bind] in H.
    apply new_fields in H as (Hsn & Hsg & _ & Hsgp).
    cbn [o_nonce o_gas o_gasPrice] in Hsn, Hsg, Hsgp.
    rewrite numberToHex_digits in Hsn, Hsg, Hsgp by assumption.
    apply Ok_inj in Hsn, Hsg, Hsgp. auto.
  - split.
    + now rewrite !canonDigits_quantity.
    + now rewrite !canonDigits_value.
Qed.

Lemma decode_normalizes_integers_witness :
  (exists createTxObj : CreateTransactionObject,
     _decode raw_padded = Ok createTxObj
     /\ o_nonce createTxObj = Str "0x1"
     /\ o_gasPrice createTxObj = Str "0x19"
     /\ o_gas createTxObj = Str "0xf4240")
  /\ decode toHex_sample raw_padded
     = Ok {| _from := Some "0xa94f5374fce5edbc8e2a8697c15331677e6ebf0b";
             _nonce := Some "0x1";
             _gas := Some "0xf4240";
             _gasPrice := Some "0x19";
             _chainId := None;
             _input := Some "0xf8a6a0";
             _signatures := [sig_sample] |}.
Proof.
  destruct (decode_normalizes_integers toHex_sample raw_padded fields_padded
              "0001" "00000019" "000f4240"
              eq_refl eq_refl eq_refl eq_refl eq_refl eq_refl eq_refl eq_refl)
    as (H1 & H2 & _).
  split; [exact H1|].
  exact (H2 "0xa94f5374fce5edbc8e2a8697c15331677e6ebf0b" [sig_sample]
            eq_refl eq_refl eq_refl eq_refl eq_refl).
Defined.


(** ** fillTransaction *)

Lemma assignResolved_frame (calls : list RpcCall) (this : ChainDataAnchoring)
    (chainId gasPrice nonce : value) :
  (forall c, _chainId this = Some c -> chainId = Str c /\ isQuantity c = true) ->
  (forall g, _gasPrice this = Some g -> gasPrice = Str g /\ isQuantity g = true) ->
  (forall n, _nonce this = Some n -> nonce = Str n /\ isQuantity n = true) ->
  let out := assignResolved calls this chainId gasPrice nonce in
  (isNot (_chainId this) = false -> _chainId (fill_tx out) = _chainId this)
  /\ (isNot (_gasPrice this) = false -> _gasPrice (fill_tx out) = _gasPrice this)
  /\ (isNot (_nonce this) = false -> _nonce (fill_tx out) = _nonce this)
  /\ fill_calls out = calls
  /\ _from (fill_tx out) = _from this
  /\ _gas (fill_tx out) = _gas this
  /\ _input (fill_tx out) = _input this
  /\ _signatures (fill_tx out) = _signatures this.
Proof.
  intros Hc Hg Hn. cbv zeta. unfold assignResolved, set_gasPrice.
  assert (Ec : forall c, _chainId this = Some c ->
                 AbstractTransaction.set_number chainId = Ok (Some c)).
  { intros c E. destruct (Hc c E) as [-> Q]. now apply numberToHex_quantity. }
  assert (Eg : forall g, _gasPrice this = Some g ->
                 utils.numberToHex gasPrice = Ok (Some g)).
  { intros g E. destruct (Hg g E) as [-> Q]. now apply numberToHex_quantity. }
  assert (En : forall n, _nonce this = Some n ->
                 AbstractTransaction.set_number nonce = Ok (Some n)).
  { intros n E. destruct (Hn n E) as [-> Q]. now apply numberToHex_quantity. }
  clear Hc Hg Hn.
  destruct this as [from n gas g c input sigs].
  cbn [_from _nonce _gas _gasPrice _chainId _input _signatures] in *.
  destruct (AbstractTransaction.set_number chainId) as [c'|e] eqn:Sc;
    [|cbn; repeat split; reflexivity].
  assert (Kc : isNot c = false -> c' = c).
  { destruct c as [c0|]; [|discriminate]. intros _.
    specialize (Ec c0 eq_refl). congruence. }
  unfold with_chainId. cbn [_from _nonce _gas _gasPrice _chainId _input _signatures].
  destruct (utils.numberToHex gasPrice) as [g'|e] eqn:Sg; cbn [bind];
    [|cbn; repeat split; auto].
  assert (Kg : isNot g = false -> g' = g).
  { destruct g as [g0|]; [|discriminate]. intros _.
    specialize (Eg g0 eq_refl). congruence. }
  unfold with_gasPrice. cbn [_from _nonce _gas _gasPrice _chainId _input _signatures].
  destruct (AbstractTransaction.set_number nonce) as [n'|e] eqn:Sn;
    [|cbn; repeat split; auto].
  assert (Kn : isNot n = false -> n' = n).
  { destruct n as [n0|]; [|discriminate]. intros _.
    specialize (En n0 eq_refl). congruence. }
  cbn. repeat split; auto.
Qed.

(** C8 -- On a transaction whose integer fields are as the setters store
    them, [fillTransaction] leaves each of chainId, gasPrice and nonce that
    the caller had set with its prior value, asks the RPC collaborator only
    for the unset ones, and changes no other field; this holds whether the
    call resolves or is rejected. *)
Theorem fillTransaction_frame (klaytnCall : KlaytnCall) (this : ChainDataAnchoring) :
  storedOk this = true ->
  let out := fillTransaction klaytnCall this in
  (isNot (_chainId this) = false -> _chainId (fill_tx out) = _chainId this)
  /\ (isNot (_gasPrice this) = false -> _gasPrice (fill_tx out) = _gasPrice this)
  /\ (isNot (_nonce this) = false -> _nonce (fill_tx out) = _nonce this)
  /\ fill_calls out = callsFor this
  /\ _from (fill_tx out) = _from this
  /\ _gas (fill_tx out) = _gas this
  /\ _input (fill_tx out) = _input this
  /\ _signatures (fill_tx out) = _signatures this.
Proof.
  intros Hs. unfold storedOk in Hs.
  apply andb_prop in Hs as [Hs Hc]. apply andb_prop in Hs as [Hs Hgp].
  apply andb_prop in Hs as [Hn _].
  cbv zeta. unfold fillTransaction, callsFor, resolve.
  set (r1 := if isNot (_chainId this) then getChainId klaytnCall
             else Ok (of_field (_chainId this))).
  set (r2 := if isNot (_gasPrice this) then getGasPrice klaytnCall
             else Ok (of_field (_gasPrice this))).
  set (r3 := if isNot (_nonce this) then getTransactionCount klaytnCall (_from this)
             else Ok (of_field (_nonce this))).
  assert (H1 : forall v c, r1 = Ok v -> _chainId this = Some c ->
                 v = Str c /\ isQuantity c = true).
  { intros v c E F. unfold r1 in E. rewrite F in *. cbn in E, Hc. split; congruence. }
  assert (H2 : forall v g, r2 = Ok v -> _gasPrice this = Some g ->
                 v = Str g /\ isQuantity g = true).
  { intros v g E F. unfold r2 in E. rewrite F in *. cbn in E, Hgp. split; congruence. }
  assert (H3 : forall v n, r3 = Ok v -> _nonce this = Some n ->
                 v = Str n /\ isQuantity n = true).
  { intros v n E F. unfold r3 in E. rewrite F in *. cbn in E, Hn. split; congruence. }
  replace (if isNot (_chainId this) then ([CallGetChainId], getChainId klaytnCall)
           else ([], Ok (of_field (_chainId this))))
    with (if isNot (_chainId this) then [CallGetChainId] else [], r1)
    by (unfold r1; now destruct (isNot (_chainId this))).
  replace (if isNot (_gasPrice this) then ([CallGetGasPrice], getGasPrice klaytnCall)
           else ([], Ok (of_field (_gasPrice this))))
    with (if isNot (_gasPrice this) then [CallGetGasPrice] else [], r2)
    by (unfold r2; now destruct (isNot (_gasPrice this))).
  replace (if isNot (_nonce this)
           then ([CallGetTransactionCount (_from this)],
                 getTransactionCount klaytnCall (_from this))
           else ([], Ok (of_field (_nonce this))))
    with (if isNot (_nonce this) then [CallGetTransactionCount (_from this)] else [], r3)
    by (unfold r3; now destruct (isNot (_nonce this))).
  clearbody r1 r2 r3.
  destruct r1 as [v1|e1]; [|cbn; repeat split; reflexivity].
  destruct r2 as [v2|e2]; [|cbn; repeat split; reflexivity].
  destruct r3 as [v3|e3]; [|cbn; repeat split; reflexivity].
  apply assignResolved_frame; eauto.
Qed.

Lemma fillTransaction_frame_witness :
  storedOk tx_draft = true
  /\ fill_calls (fillTransaction rpc_sample tx_draft)
     = [CallGetChainId; CallGetTransactionCount (_from tx_draft)]
  /\ _gasPrice (fill_tx (fillTransaction rpc_sample tx_draft)) = Some "0x19"
  /\ fill_tx (fillTransaction rpc_sample tx_draft)
     = with_nonce (with_chainId tx_draft (Some "0x2019")) (Some "0x7").
Proof.
  split; [reflexivity|].
  destruct (fillTransaction_frame rpc_sample tx_draft eq_refl) as (_ & Hg & _ & Hcalls & _).
  split; [exact Hcalls|]. split; [exact (Hg eq_refl) | reflexivity].
Defined.

(** [fillTransaction] keeps the invariant of the integer fields. *)
Lemma fillTransaction_storedOk (klaytnCall : KlaytnCall) (this : ChainDataAnchoring) :
  storedOk this = true -> storedOk (fill_tx (fillTransaction klaytnCall this)) = true.
Proof.
  intros Hs. unfold fillTransaction.
  destruct (resolve (_chainId this) CallGetChainId (getChainId klaytnCall)) as [c1 r1].
  destruct (resolve (_gasPrice this) CallGetGasPrice (getGasPrice klaytnCall)) as [c2 r2].
  destruct (resolve (_nonce this) (CallGetTransactionCount (_from this))
              (getTransactionCount klaytnCall (_from this))) as [c3 r3].
  destruct r1 as [v1|]; [|exact Hs]. destruct r2 as [v2|]; [|exact Hs].
  destruct r3 as [v3|]; [|exact Hs].
  unfold assignResolved, set_gasPrice, AbstractTransaction.set_number.
  unfold storedOk in Hs.
  apply andb_prop in Hs as [Hs Hc]. apply andb_prop in Hs as [Hs Hgp].
  apply andb_prop in Hs as [Hn Hg].
  destruct (utils.numberToHex v1) as [c|] eqn:E1;
    [|unfold storedOk; cbn [fill_tx]; now rewrite Hn, Hg, Hgp, Hc].
  apply numberToHex_stored in E1.
  destruct (utils.numberToHex v2) as [g|] eqn:E2; cbn [bind];
    [|unfold storedOk, with_chainId; cbn; now rewrite Hn, Hg, Hgp, E1].
  apply numberToHex_stored in E2.
  destruct (utils.numberToHex v3) as [n|] eqn:E3;
    [|unfold storedOk, with_chainId, with_gasPrice; cbn; now rewrite Hn, Hg, E2, E1].
  apply numberToHex_stored in E3.
  unfold storedOk, with_chainId, with_gasPrice, with_nonce. cbn.
  now rewrite E3, Hg, E2, E1.
Qed.

(** ** Examples *)

(** the test vectors of the RLP specification *)
Example rlp_dog : RLP.encode (Str "0x646f67") = Ok "0x83646f67".
Proof. reflexivity. Qed.

Example rlp_cat_dog :
  RLP.encode (Arr [Str "0x636174"; Str "0x646f67"]) = Ok "0xc88363617483646f67".
Proof. reflexivity. Qed.

Example rlp_empty_string : RLP.encode (Str "0x") = Ok "0x80".
Proof. reflexivity. Qed.

Example rlp_empty_list : RLP.encode (Arr []) = Ok "0xc0".
Proof. reflexivity. Qed.

Example rlp_single_byte : RLP.encode (Str "0x0f") = Ok "0x0f".
Proof. reflexivity. Qed.

Example rlp_two_bytes : RLP.encode (Str "0x0400") = Ok "0x820400".
Proof. reflexivity. Qed.

Example rlp_set_of_three :
  RLP.encode (Arr [Arr []; Arr [Arr []]; Arr [Arr []; Arr [Arr []]]]) = Ok "0xc7c0c1c0c3c0c1c0".
Proof. reflexivity. Qed.

Example rlp_long_string :
  RLP.encode (Str "0x4c6f72656d20697073756d20646f6c6f722073697420616d65742c20636f6e7365637465747572206164697069736963696e6720656c6974")
  = Ok "0xb8384c6f72656d20697073756d20646f6c6f722073697420616d65742c20636f6e7365637465747572206164697069736963696e6720656c6974".
Proof. reflexivity. Qed.

Example rlp_decode_cat_dog :
  RLP.decode "0xc88363617483646f67" = Ok (Arr [Str "0x636174"; Str "0x646f67"]).
Proof. reflexivity. Qed.

Example rlp_decode_empty_input : RLP.decode "0x" = Ok (Arr []).
Proof. reflexivity. Qed.

Example fromNat_zero : Bytes.fromNat "0x0" = "0x".
Proof. reflexivity. Qed.

Example fromNat_odd : Bytes.fromNat "0x4d2" = "0x04d2".
Proof. reflexivity. Qed.

Example trimLeadingZero_padded :
  utils.trimLeadingZero (Str "0x000f4240") = Ok (Str "0xf4240").
Proof. reflexivity. Qed.

Example trimLeadingZero_zero : utils.trimLeadingZero (Str "0x00") = Ok (Str "0x").
Proof. reflexivity. Qed.

(** the raw transaction of the sample and its decoding *)
Example getRLPEncoding_sample :
  getRLPEncoding tx_sample
  = Ok "0x48f8888204d219830f424094a94f5374fce5edbc8e2a8697c15331677e6ebf0ba3f8a6a00000000000000000000000000000000000000000000000000000000000000000f845f84325a0e58b9abf9f33a066b998fccaca711553fb4df425c9234bbb3577f9d9775bb124a02c409a6c5d92277c0a812dd0cc553d7fe1d652a807274c3786df3292cd473e09".
Proof. reflexivity. Qed.

Example decode_sample :
  (raw <- getRLPEncoding tx_sample ;; decode toHex_sample raw)
  = Ok (with_chainId tx_sample None).
Proof. reflexivity. Qed.

Example decode_wrong_tag :
  decode toHex_sample "0x09f8888204d219830f4240" = Throw UnsupportedTypeTagError.
Proof. reflexivity. Qed.

(** a rejected RPC call: both queries were made, nothing was assigned *)
Example fillTransaction_rejected :
  fillTransaction rpc_rejecting tx_draft
  = {| fill_calls := [CallGetChainId; CallGetTransactionCount (_from tx_draft)];
       fill_tx := tx_draft;
       fill_error := Some (RpcError "connection refused") |}.
Proof. reflexivity. Qed.

(** * Further properties *)

(** ** The encodings determine the fields *)


Lemma encode_inv (t : value) (e : string) :
  RLP.encode t = Ok e -> exists d : string, RLP.dataTree t = Ok d /\ e = "0x" ++ d.
Proof.
  unfold RLP.encode. intros H. apply bind_Ok in H as (d & Hd & H).
  apply Ok_inj in H. eauto.
Qed.

(** [RLP.encode] is injective on trees of byte strings. *)
Lemma encode_inj (t1 t2 : value) (e : string) :
  byteTree t1 = true -> byteTree t2 = true ->
  RLP.encode t1 = Ok e -> RLP.encode t2 = Ok e ->
  (N.of_nat (String.length e) < 2 ^ 64)%N ->
  t1 = t2.
Proof.
  intros B1 B2 E1 E2 Hlen.
  pose proof (decode_encode t1 e B1 E1 Hlen) as D1.
  pose proof (decode_encode t2 e B2 E2 Hlen) as D2.
  congruence.
Qed.

(** [Bytes.fromNat] is injective on stored integers. *)
Lemma fromNat_inj (q1 q2 : string) :
  isQuantity q1 = true -> isQuantity q2 = true ->
  Bytes.fromNat q1 = Bytes.fromNat q2 -> q1 = q2.
Proof.
  intros Q1 Q2 E.
  destruct (fromNat_quantity q1 Q1) as (_ & t1 & T1 & N1).
  destruct (fromNat_quantity q2 Q2) as (_ & t2 & T2 & N2).
  rewrite E in T1. congruence.
Qed.


Lemma joinTree_Ok (l : list value) (hex : string) :
  joinTree l = Ok hex -> forall t : value, In t l -> exists d : string, RLP.dataTree t = Ok d.
Proof.
  revert hex. induction l as [|t0 l IH]; intros hex H t Hin; [contradiction|].
  rewrite joinTree_cons in H. apply bind_Ok in H as (h & Hh & H).
  apply bind_Ok in H as (r & Hr & _).
  destruct Hin as [<- | Hin]; [eauto | eapply IH; eauto].
Qed.

(** an array that holds [undefined] cannot be encoded *)
Lemma encode_undefined (l : list value) (e : string) :
  In Undefined l -> RLP.encode (Arr l) <> Ok e.
Proof.
  intros Hin H. apply encode_inv in H as (d & Hd & _).
  rewrite dataTree_Arr in Hd. apply bind_Ok in Hd as (hex & Hj & _).
  destruct (joinTree_Ok l hex Hj Undefined Hin) as (d0 & Hd0). discriminate Hd0.
Qed.

(** what a successful [getRLPEncoding] has read and written *)
Lemma getRLPEncoding_inv (this : ChainDataAnchoring) (raw : string) :
  getRLPEncoding this = Ok raw ->
  exists nonce gasPrice gas from input d : string,
    _nonce this = Some nonce /\ _gasPrice this = Some gasPrice /\ _gas this = Some gas
    /\ _from this = Some from /\ _input this = Some input
    /\ RLP.dataTree (Arr [Str (Bytes.fromNat nonce); Str (Bytes.fromNat gasPrice);
                          Str (Bytes.fromNat gas); Str (toLowerCase from); Str input;
                          Arr (map SignatureData_encode (_signatures this))]) = Ok d
    /\ raw = TxTypeChainDataAnchoring ++ d.
Proof.
  unfold getRLPEncoding, validateOptionalValues, AbstractTransaction.validateOptionalValues.
  destruct this as [[a|] [n|] [g|] [gp|] [c|] i sigs];
    cbn [_from _nonce _gas _gasPrice _chainId _input _signatures isNot bind
         fromNat_field toLowerCase_field]; try discriminate.
  intros H. apply bind_Ok in H as (enc & He & H). apply Ok_inj in H.
  destruct i as [i|]; cbn [of_field] in He.
  - apply encode_inv in He as (d & Hd & ->). change (sliceFrom 2 ("0x" ++ d)) with d in H.
    exists n, gp, g, a, i, d. repeat split; auto.
  - exfalso. eapply encode_undefined; [|exact He]. cbn. auto 10.
Qed.

(** what a successful [getCommonRLPEncodingForSignature] has read and written *)
Lemma getCommonRLPEncodingForSignature_inv (this : ChainDataAnchoring) (payload : string) :
  getCommonRLPEncodingForSignature this = Ok payload ->
  exists nonce gasPrice gas from input : string,
    _nonce this = Some nonce /\ _gasPrice this = Some gasPrice /\ _gas this = Some gas
    /\ _from this = Some from /\ _input this = Some input
    /\ RLP.encode (Arr [Str TxTypeChainDataAnchoring; Str (Bytes.fromNat nonce);
                        Str (Bytes.fromNat gasPrice); Str (Bytes.fromNat gas);
                        Str (toLowerCase from); Str input]) = Ok payload.
Proof.
  unfold getCommonRLPEncodingForSignature, validateOptionalValues,
    AbstractTransaction.validateOptionalValues.
  destruct this as [[a|] [n|] [g|] [gp|] [c|] i sigs];
    cbn [_from _nonce _gas _gasPrice _chainId _input _signatures isNot bind
         fromNat_field toLowerCase_field]; try discriminate.
  intros He. destruct i as [i|]; cbn [of_field] in He.
  - exists n, gp, g, a, i. repeat split; auto.
  - exfalso. eapply encode_undefined; [|exact He]. cbn. auto 10.
Qed.

Lemma fromNat_prefixed (q : string) :
  isQuantity q = true -> startsWith (Bytes.fromNat q) "0x" = true.
Proof.
  intros Q. destruct (fromNat_quantity q Q) as (B & _).
  unfold isByteString in B. now apply andb_prop in B.
Qed.

Lemma toLowerCase_prefixed (a : string) :
  startsWith a "0x" = true -> startsWith (toLowerCase a) "0x" = true.
Proof.
  intros H. apply startsWith_inv in H. rewrite H.
  change (toLowerCase ("0x" ++ sliceFrom (String.length "0x") a))
    with ("0x" ++ toLowerCase (sliceFrom 2 a)).
  apply startsWith_app.
Qed.






Lemma signedFieldsOk_inv (tx : ChainDataAnchoring) :
  signedFieldsOk tx = true ->
  quantityField (_nonce tx) = true /\ quantityField (_gas tx) = true
  /\ quantityField (_gasPrice tx) = true /\ prefixedField (_from tx) = true
  /\ prefixedField (_input tx) = true.
Proof.
  unfold signedFieldsOk. intros H.
  apply andb_prop in H as [H H5]. apply andb_prop in H as [H H4].
  apply andb_prop in H as [H H3]. apply andb_prop in H as [H1 H2]. auto.
Qed.

(** X2 -- The signing payload determines what is signed: two transactions
    whose nonce, gas and gasPrice are integers in their stored form and whose
    from and input are written with the prefix "0x", and for which
    [getCommonRLPEncodingForSignature] gives the same string, have the same
    nonce, gasPrice, gas and input, and the same sender up to letter case.
    The prefix is part of the condition: the input setter keeps a prefix
    "0X" as it is written. *)
Theorem getCommonRLPEncodingForSignature_injective (tx1 tx2 : ChainDataAnchoring)
    (payload : string) :
  signedFieldsOk tx1 = true -> signedFieldsOk tx2 = true ->
  getCommonRLPEncodingForSignature tx1 = Ok payload ->
  getCommonRLPEncodingForSignature tx2 = Ok payload ->
  (N.of_nat (String.length payload) < 2 ^ 64)%N ->
  _nonce tx1 = _nonce tx2 /\ _gasPrice tx1 = _gasPrice tx2 /\ _gas tx1 = _gas tx2
  /\ option_map toLowerCase (_from tx1) = option_map toLowerCase (_from tx2)
  /\ _input tx1 = _input tx2.
Proof.
  intros W1 W2 E1 E2 Hlen.
  apply signedFieldsOk_inv in W1 as (Qn1 & Qg1 & Qgp1 & Pf1 & Pi1).
  apply signedFieldsOk_inv in W2 as (Qn2 & Qg2 & Qgp2 & Pf2 & Pi2).
  apply getCommonRLPEncodingForSignature_inv in E1
    as (n1 & gp1 & g1 & a1 & i1 & Hn1 & Hgp1 & Hg1 & Hf1 & Hi1 & D1).
  apply getCommonRLPEncodingForSignature_inv in E2
    as (n2 & gp2 & g2 & a2 & i2 & Hn2 & Hgp2 & Hg2 & Hf2 & Hi2 & D2).
  rewrite Hn1, Hgp1, Hg1, Hf1, Hi1 in *. rewrite Hn2, Hgp2, Hg2, Hf2, Hi2 in *.
  cbn [quantityField prefixedField] in *.
  assert (HT : Arr [Str TxTypeChainDataAnchoring; Str (Bytes.fromNat n1);
                    Str (Bytes.fromNat gp1); Str (Bytes.fromNat g1);
                    Str (toLowerCase a1); Str i1]
               = Arr [Str TxTypeChainDataAnchoring; Str (Bytes.fromNat n2);
                      Str (Bytes.fromNat gp2); Str (Bytes.fromNat g2);
                      Str (toLowerCase a2); Str i2]).
  { apply (encode_inj _ _ payload); try assumption;
      cbn [byteTree forallb];
      now rewrite !fromNat_prefixed, toLowerCase_prefixed, ?Pi1, ?Pi2. }
  injection HT as En Egp Eg Ea Ei.
  apply fromNat_inj in En, Egp, Eg; try assumption.
  subst. cbn [option_map]. rewrite Ea. auto 10.
Qed.

Lemma getCommonRLPEncodingForSignature_injective_witness :
  _nonce tx_sample = _nonce tx_unsigned /\ _input tx_sample = _input tx_unsigned.
Proof.
  destruct (getCommonRLPEncodingForSignature_injective tx_sample tx_unsigned
              "0xf842488204d219830f424094a94f5374fce5edbc8e2a8697c15331677e6ebf0ba3f8a6a00000000000000000000000000000000000000000000000000000000000000000"
              eq_refl eq_refl eq_refl eq_refl eq_refl)
    as (Hn & _ & _ & _ & Hi).
  split; [exact Hn | exact Hi].
Defined.

(** without the condition on the prefix: two inputs, one signing payload *)
Example getCommonRLPEncodingForSignature_upper_prefix :
  new toHex_sample (FromObject (obj_signed (Str "0X12"))) = Ok (tx_signed "0X12")
  /\ new toHex_sample (FromObject (obj_signed (Str "0x12"))) = Ok (tx_signed "0x12")
  /\ getCommonRLPEncodingForSignature (tx_signed "0X12")
     = getCommonRLPEncodingForSignature (tx_signed "0x12").
Proof. repeat split; reflexivity. Qed.

(** X3 -- On a valid transaction, signed or not,
    [getCommonRLPEncodingForSignature] succeeds, and the string it gives
    RLP-decodes to six items: the type tag, then nonce, gasPrice and gas as
    [Bytes.fromNat] writes them, the lower-case sender and the input. *)
Theorem getCommonRLPEncodingForSignature_decodes (toHex : value -> string)
    (tx : ChainDataAnchoring) :
  validTx toHex tx = true ->
  exists payload : string,
    getCommonRLPEncodingForSignature tx = Ok payload
    /\ ((N.of_nat (String.length payload) < 2 ^ 64)%N ->
        exists nonce gasPrice gas from input : string,
          _nonce tx = Some nonce /\ _gasPrice tx = Some gasPrice /\ _gas tx = Some gas
          /\ _from tx = Some from /\ _input tx = Some input
          /\ RLP.decode payload
             = Ok (Arr [Str TxTypeChainDataAnchoring; Str (Bytes.fromNat nonce);
                        Str (Bytes.fromNat gasPrice); Str (Bytes.fromNat gas);
                        Str from; Str input])).
Proof.
  intros Hv. unfold validTx in Hv.
  destruct tx as [[a|] [n|] [g|] [gp|] [c|] [i|] sigs];
    cbn [_from _nonce _gas _gasPrice _chainId _input _signatures] in Hv;
    try discriminate Hv.
  apply andb_prop in Hv as [Hv _]. apply andb_prop in Hv as [Hv _].
  apply andb_prop in Hv as [Hv _]. apply andb_prop in Hv as [Hv Hbi].
  apply andb_prop in Hv as [Hv Hlow]. apply andb_prop in Hv as [Hv Haddr].
  apply andb_prop in Hv as [Hv _]. apply andb_prop in Hv as [Hv Hqgp].
  apply andb_prop in Hv as [Hqn Hqg].
  apply String.eqb_eq in Hlow.
  destruct (fromNat_quantity n Hqn) as (Bn & _).
  destruct (fromNat_quantity g Hqg) as (Bg & _).
  destruct (fromNat_quantity gp Hqgp) as (Bgp & _).
  pose proof (isAddress_byteString a Haddr) as Ba.
  set (T := Arr [Str TxTypeChainDataAnchoring; Str (Bytes.fromNat n);
                 Str (Bytes.fromNat gp); Str (Bytes.fromNat g); Str a; Str i]).
  assert (HT : evenTree T = true).
  { unfold T. cbn [evenTree forallb]. rewrite Bn, Bgp, Bg, Ba, Hbi. reflexivity. }
  destruct (encode_total T HT) as (enc & Henc & _).
  exists enc. split.
  - unfold getCommonRLPEncodingForSignature, validateOptionalValues,
      AbstractTransaction.validateOptionalValues.
    cbn [_from _nonce _gas _gasPrice _chainId _input _signatures isNot bind
         fromNat_field toLowerCase_field of_field].
    rewrite Hlow. exact Henc.
  - intros Hlen. exists n, gp, g, a, i.
    cbn [_from _nonce _gas _gasPrice _chainId _input _signatures].
    repeat split.
    exact (decode_encode T enc (evenTree_byteTree T HT) Henc Hlen).
Qed.

Lemma getCommonRLPEncodingForSignature_decodes_witness :
  validTx toHex_sample tx_unsigned = true
  /\ exists payload : string,
       getCommonRLPEncodingForSignature tx_unsigned = Ok payload
       /\ ((N.of_nat (String.length payload) < 2 ^ 64)%N ->
           exists nonce gasPrice gas from input : string,
             _nonce tx_unsigned = Some nonce /\ _gasPrice tx_unsigned = Some gasPrice
             /\ _gas tx_unsigned = Some gas
             /\ _from tx_unsigned = Some from /\ _input tx_unsigned = Some input
             /\ RLP.decode payload
                = Ok (Arr [Str TxTypeChainDataAnchoring; Str (Bytes.fromNat nonce);
                           Str (Bytes.fromNat gasPrice); Str (Bytes.fromNat gas);
                           Str from; Str input])).
Proof.
  split; [reflexivity|].
  apply (getCommonRLPEncodingForSignature_decodes toHex_sample tx_unsigned). reflexivity.
Defined.

(** ** The shape of a raw transaction *)

(** a string with the type tag in front is not rejected for its tag *)
Lemma decode_tagged_tagFree (toHex : value -> string) (rlpEncoded : string) :
  startsWith (utils.addHexPrefix rlpEncoded) TxTypeChainDataAnchoring = true ->
  tagFree (decode toHex rlpEncoded).
Proof.
  intros Hs. unfold decode, _decode. cbv zeta. rewrite Hs. cbn [negb].
  apply tagFree_bind; [|intros; apply new_object_tagFree].
  apply tagFree_bind; [apply RLP_decode_tagFree|]. intros decoded.
  apply tagFree_bind; [unfold iterate; tag_free|]. intros fields.
  apply tagFree_bind; [apply trimLeadingZero_tagFree|]. intros nonce.
  apply tagFree_bind; [apply trimLeadingZero_tagFree|]. intros gasPrice.
  apply tagFree_bind; [apply trimLeadingZero_tagFree|]. intros gas.
  apply tagFree_Ok.
Qed.

(** where the embedding of [getRLPEncoding] gives a result, the result has
    the type tag in front and an even number of characters *)
Lemma getRLPEncoding_shape (toHex : value -> string) (this : ChainDataAnchoring)
    (raw : string) :
  getRLPEncoding this = Ok raw ->
  startsWith raw TxTypeChainDataAnchoring = true
  /\ Nat.even (String.length raw) = true
  /\ 6 <= String.length raw
  /\ decode toHex raw <> Throw UnsupportedTypeTagError.
Proof.
  intros H.
  apply getRLPEncoding_inv in H as (n & gp & g & a & i & d & _ & _ & _ & _ & _ & Hd & ->).
  apply dataTree_even in Hd as [Hev Hlen].
  split; [apply startsWith_app|].
  split; [rewrite length_append, Nat.even_add, Hev; reflexivity|].
  split; [rewrite length_append; cbn [TxTypeChainDataAnchoring String.length]; lia|].
  apply decode_tagged_tagFree. rewrite addHexPrefix_tag. apply startsWith_app.
Qed.

Lemma toLowerCase_length (s : string) : String.length (toLowerCase s) = String.length s.
Proof. induction s as [|c s IH]; cbn [toLowerCase String.length]; congruence. Qed.

Lemma toLowerCase_byteString (s : string) :
  isByteString s = true -> isByteString (toLowerCase s) = true.
Proof.
  unfold isByteString. intros H. apply andb_prop in H as [Hp He].
  now rewrite (toLowerCase_prefixed s Hp), toLowerCase_length, He.
Qed.

(** X4 -- On a filled transaction whose integer fields are in their stored
    form and whose from, input and signature parts are byte strings ("0x" and
    an even number of characters), [getRLPEncoding] succeeds, and what it
    returns starts with the type tag, is a whole number of bytes (an even
    number of characters, at least six), and is never rejected by [decode]
    for its type tag. *)
Theorem getRLPEncoding_tagged (toHex : value -> string) (this : ChainDataAnchoring) :
  storedOk this = true -> filled this = true ->
  byteStringField (_from this) = true -> byteStringField (_input this) = true ->
  forallb signatureOk (_signatures this) = true ->
  exists raw : string,
    getRLPEncoding this = Ok raw
    /\ startsWith raw TxTypeChainDataAnchoring = true
    /\ Nat.even (String.length raw) = true
    /\ 6 <= String.length raw
    /\ decode toHex raw <> Throw UnsupportedTypeTagError.
Proof.
  intros Hs Hf Ba Bi Hsigs.
  destruct this as [a n g gp c i sigs].
  unfold storedOk, filled in *.
  cbn [_from _nonce _gas _gasPrice _chainId _input _signatures] in *.
  destruct n as [n|], g as [g|], gp as [gp|], c as [c|], a as [a|]; try discriminate Hf.
  destruct i as [i|]; [|discriminate Bi].
  cbn [quantityField byteStringField] in Hs, Ba, Bi.
  apply andb_prop in Hs as [Hs _]. apply andb_prop in Hs as [Hs Qgp].
  apply andb_prop in Hs as [Qn Qg].
  destruct (fromNat_quantity n Qn) as (Bn & _).
  destruct (fromNat_quantity g Qg) as (Bg & _).
  destruct (fromNat_quantity gp Qgp) as (Bgp & _).
  pose proof (toLowerCase_byteString a Ba) as Bl.
  pose proof (signatures_even sigs Hsigs) as Bs.
  set (T := Arr [Str (Bytes.fromNat n); Str (Bytes.fromNat gp); Str (Bytes.fromNat g);
                 Str (toLowerCase a); Str i; Arr (map SignatureData_encode sigs)]).
  assert (HT : evenTree T = true).
  { unfold T. cbn [evenTree forallb]. now rewrite Bn, Bgp, Bg, Bl, Bi, Bs. }
  destruct (encode_total T HT) as (enc & Henc & _).
  assert (Hraw : getRLPEncoding (mkTx (Some a) (Some n) (Some g) (Some gp) (Some c) (Some i) sigs)
                 = Ok (TxTypeChainDataAnchoring ++ sliceFrom 2 enc)).
  { unfold getRLPEncoding, validateOptionalValues, AbstractTransaction.validateOptionalValues.
    cbn [_from _nonce _gas _gasPrice _chainId _input _signatures isNot bind
         fromNat_field toLowerCase_field of_field].
    fold T. rewrite Henc. reflexivity. }
  eexists. split; [exact Hraw|]. exact (getRLPEncoding_shape toHex _ _ Hraw).
Qed.

Lemma getRLPEncoding_tagged_witness :
  exists raw : string,
    getRLPEncoding tx_unsigned = Ok raw
    /\ startsWith raw TxTypeChainDataAnchoring = true
    /\ Nat.even (String.length raw) = true
    /\ 6 <= String.length raw
    /\ decode toHex_sample raw <> Throw UnsupportedTypeTagError.
Proof.
  exact (getRLPEncoding_tagged toHex_sample tx_unsigned
           eq_refl eq_refl eq_refl eq_refl eq_refl).
Defined.

(** X5 -- Whatever can be serialized can be signed: when [getRLPEncoding]
    succeeds on a transaction, [getCommonRLPEncodingForSignature] succeeds on
    it as well. *)
Theorem getRLPEncoding_signable (this : ChainDataAnchoring) (raw : string) :
  getRLPEncoding this = Ok raw ->
  exists payload : string, getCommonRLPEncodingForSignature this = Ok payload.
Proof.
  intros H.
  assert (Hc : exists c, _chainId this = Some c).
  { unfold getRLPEncoding, validateOptionalValues,
      AbstractTransaction.validateOptionalValues in H.
    destruct (_chainId this) as [c|]; [eauto|].
    destruct (_nonce this), (_gas this), (_gasPrice this); discriminate H. }
  destruct Hc as (c & Hc).
  apply getRLPEncoding_inv in H
    as (n & gp & g & a & i & d & Hn & Hgp & Hg & Ha & Hi & Hd & _).
  rewrite dataTree_Arr in Hd. apply bind_Ok in Hd as (hex & Hj & _).
  pose proof (joinTree_Ok _ _ Hj) as Hin.
  destruct (Hin (Str (Bytes.fromNat n))) as (dn & Hdn); [cbn; auto|].
  destruct (Hin (Str (Bytes.fromNat gp))) as (dgp & Hdgp); [cbn; auto|].
  destruct (Hin (Str (Bytes.fromNat g))) as (dg & Hdg); [cbn; auto|].
  destruct (Hin (Str (toLowerCase a))) as (da & Hda); [cbn; auto 10|].
  destruct (Hin (Str i)) as (di & Hdi); [cbn; auto 10|].
  unfold getCommonRLPEncodingForSignature, validateOptionalValues,
    AbstractTransaction.validateOptionalValues.
  rewrite Hn, Hgp, Hg, Ha, Hi, Hc.
  cbn [isNot bind fromNat_field toLowerCase_field of_field].
  unfold RLP.encode. rewrite dataTree_Arr, !joinTree_cons, Hdn, Hdgp, Hdg, Hda, Hdi.
  change (RLP.dataTree (Str TxTypeChainDataAnchoring)) with (@Ok string "48").
  cbn [bind joinTree]. eauto.
Qed.

Lemma getRLPEncoding_signable_witness :
  exists payload : string, getCommonRLPEncodingForSignature tx_sample = Ok payload.
Proof.
  exact (getRLPEncoding_signable tx_sample _ eq_refl).
Defined.

(** ** The payload at construction and at decoding *)

(** what the constructor has stored as input when it returns *)
Lemma new_input_inv (toHex : value -> string) (o : CreateTransactionObject)
    (this : ChainDataAnchoring) :
  new toHex (FromObject o) = Ok this ->
  truthy (js_or (o_input o) (o_data o)) = true
  /\ utils.isHex (js_or (o_input o) (o_data o)) = true
  /\ _input this = Some (toHex (js_or (o_input o) (o_data o))).
Proof.
  unfold new. cbn [bind].
  destruct (AbstractTransaction.new o) as [this0|e]; cbn [bind]; [|discriminate].
  destruct (truthy (o_input o) && truthy (o_data o)); [discriminate|].
  unfold set_input.
  set (v := js_or (o_input o) (o_data o)).
  destruct (truthy v) eqn:Ht; cbn [negb orb bind]; [|discriminate].
  destruct (utils.isHex v) eqn:Hh; cbn [negb bind]; [|discriminate].
  intros H. split; [reflexivity|]. split; [reflexivity|].
  destruct (o_gasPrice o); unfold set_gasPrice in H;
    try (apply Ok_inj in H; subst this; reflexivity);
    (apply bind_Ok in H as (p & _ & H); apply Ok_inj in H; subst this; reflexivity).
Qed.

(** X6 -- What [decode] returns has an input, and it is the fifth item of the
    RLP list behind the type tag: that list has at least five items, the
    fifth is a non-empty valid hex value, and the input of the transaction
    is its conversion.  A list of fewer than five items is never decoded to a
    transaction. *)
Theorem decode_input (toHex : value -> string) (rlpEncoded : string)
    (tx : ChainDataAnchoring) :
  decode toHex rlpEncoded = Ok tx ->
  exists (decoded : value) (fields : list value),
    RLP.decode ("0x" ++ sliceFrom 4 (utils.addHexPrefix rlpEncoded)) = Ok decoded
    /\ iterate decoded = Ok fields
    /\ 5 <= List.length fields
    /\ truthy (element fields 4) = true
    /\ utils.isHex (element fields 4) = true
    /\ _input tx = Some (toHex (element fields 4)).
Proof.
  unfold decode, _decode. cbv zeta. intros H.
  destruct (startsWith (utils.addHexPrefix rlpEncoded) TxTypeChainDataAnchoring);
    cbn [negb bind] in H; [|discriminate H].
  apply bind_Ok in H as (o & Ho & H).
  apply bind_Ok in Ho as (decoded & Hd & Ho). apply bind_Ok in Ho as (fields & Hf & Ho).
  apply bind_Ok in Ho as (nonce & _ & Ho). apply bind_Ok in Ho as (gasPrice & _ & Ho).
  apply bind_Ok in Ho as (gas & _ & Ho). apply Ok_inj in Ho. subst o.
  apply new_input_inv in H as (Ht & Hh & Hi).
  cbn [o_input o_data] in Ht, Hh, Hi. unfold js_or in Ht, Hh, Hi.
  destruct (truthy (element fields 4)) eqn:Ht4; [|discriminate Ht].
  exists decoded, fields. repeat split; try assumption.
  destruct (Nat.le_gt_cases 5 (List.length fields)) as [Hle | Hgt]; [exact Hle|].
  unfold element in Ht4. rewrite nth_overflow in Ht4; [discriminate Ht4 | lia].
Qed.

Lemma decode_input_witness :
  exists (decoded : value) (fields : list value),
    RLP.decode ("0x" ++ sliceFrom 4 (utils.addHexPrefix raw_padded)) = Ok decoded
    /\ iterate decoded = Ok fields
    /\ 5 <= List.length fields
    /\ truthy (element fields 4) = true
    /\ utils.isHex (element fields 4) = true
    /\ Some "0xf8a6a0" = Some (toHex_sample (element fields 4)).
Proof.
  exact (decode_input toHex_sample raw_padded
           (mkTx (Some "0xa94f5374fce5edbc8e2a8697c15331677e6ebf0b") (Some "0x1")
                 (Some "0xf4240") (Some "0x19") None (Some "0xf8a6a0") [sig_sample])
           eq_refl).
Defined.

(** X7 -- [data] is an alias of [input]: when one of the two is absent or
    falsy, the constructor does the same whichever of the two properties
    holds the other value, an error included. *)
Theorem new_data_alias (toHex : value -> string) (createTxObj : CreateTransactionObject)
    (v w : value) :
  truthy w = false ->
  new toHex (FromObject (with_payload createTxObj v w))
  = new toHex (FromObject (with_payload createTxObj w v)).
Proof.
  intros Hw. unfold new. cbn [bind].
  change (AbstractTransaction.new (with_payload createTxObj v w))
    with (AbstractTransaction.new createTxObj).
  change (AbstractTransaction.new (with_payload createTxObj w v))
    with (AbstractTransaction.new createTxObj).
  destruct (AbstractTransaction.new createTxObj) as [this|e]; cbn [bind]; [|reflexivity].
  cbn [with_payload o_input o_data o_gasPrice].
  unfold js_or. rewrite Hw, andb_false_r. cbn [andb].
  destruct (truthy v) eqn:Hv; [reflexivity|].
  unfold set_input. rewrite Hv, Hw. reflexivity.
Qed.

Lemma new_data_alias_witness :
  new toHex_sample (FromObject (with_payload (obj_sample Undefined Undefined)
                                             (Str "0xf8a6a0") (Str "")))
  = new toHex_sample (FromObject (with_payload (obj_sample Undefined Undefined)
                                               (Str "") (Str "0xf8a6a0"))).
Proof.
  exact (new_data_alias toHex_sample (obj_sample Undefined Undefined)
           (Str "0xf8a6a0") (Str "") eq_refl).
Defined.

(** ** The gasPrice setter *)

Lemma numberToHex_of_field (f : option string) :
  quantityField f = true -> utils.numberToHex (of_field f) = Ok f.
Proof.
  destruct f as [q|]; cbn [quantityField of_field]; [apply numberToHex_quantity|reflexivity].
Qed.

(** X8 -- The gasPrice setter changes gasPrice only, what it stores is an
    integer in its stored form (or nothing, for undefined), and assigning the
    value the getter returns back to the property changes nothing. *)
Theorem set_gasPrice_stored (g : value) (this this' : ChainDataAnchoring) :
  set_gasPrice g this = Ok this' ->
  quantityField (_gasPrice this') = true
  /\ utils.numberToHex g = Ok (_gasPrice this')
  /\ _from this' = _from this /\ _nonce this' = _nonce this /\ _gas this' = _gas this
  /\ _chainId this' = _chainId this /\ _input this' = _input this
  /\ _signatures this' = _signatures this
  /\ set_gasPrice (of_field (_gasPrice this')) this' = Ok this'.
Proof.
  unfold set_gasPrice at 1. intros H. apply bind_Ok in H as (p & Hp & H).
  apply Ok_inj in H. subst this'.
  pose proof (numberToHex_stored g p Hp) as Hq.
  cbn [with_gasPrice _from _nonce _gas _gasPrice _chainId _input _signatures].
  repeat split; try assumption.
  unfold set_gasPrice. rewrite (numberToHex_of_field p Hq). reflexivity.
Qed.

Lemma set_gasPrice_stored_witness :
  quantityField (_gasPrice (with_gasPrice tx_draft (Some "0x19"))) = true.
Proof.
  exact (proj1 (set_gasPrice_stored (Str "25") tx_draft
                  (with_gasPrice tx_draft (Some "0x19")) eq_refl)).
Defined.

(** ** Filling in from the node *)

Lemma isNot_false (f : option string) : isNot f = false -> exists q, f = Some q.
Proof. destruct f as [q|]; [eauto | discriminate]. Qed.

(** X9 -- On a transaction whose chainId, gasPrice and nonce are all set,
    [fillTransaction] makes no RPC call, raises nothing and leaves the
    transaction as it is, whatever the node would answer. *)
Theorem fillTransaction_filled (klaytnCall : KlaytnCall) (this : ChainDataAnchoring) :
  storedOk this = true ->
  isNot (_chainId this) = false -> isNot (_gasPrice this) = false ->
  isNot (_nonce this) = false ->
  fillTransaction klaytnCall this = mkFill [] this None.
Proof.
  intros Hs Hc Hgp Hn. unfold storedOk in Hs.
  apply andb_prop in Hs as [Hs Qc]. apply andb_prop in Hs as [Hs Qgp].
  apply andb_prop in Hs as [Qn _].
  unfold fillTransaction, resolve. rewrite Hc, Hgp, Hn.
  apply isNot_false in Hc as (c & Hc). apply isNot_false in Hgp as (gp & Hgp).
  apply isNot_false in Hn as (n & Hn).
  unfold assignResolved, set_gasPrice, AbstractTransaction.set_number.
  rewrite (numberToHex_of_field _ Qc).
  cbn [with_chainId _gasPrice]. rewrite (numberToHex_of_field _ Qgp). cbn [bind].
  rewrite (numberToHex_of_field _ Qn).
  destruct this as [a n0 g gp0 c0 i sigs]. reflexivity.
Qed.

Lemma fillTransaction_filled_witness :
  fillTransaction rpc_rejecting tx_sample = mkFill [] tx_sample None.
Proof.
  exact (fillTransaction_filled rpc_rejecting tx_sample eq_refl eq_refl eq_refl eq_refl).
Defined.

(** X10 -- [fillTransaction] assigns nothing when a call is rejected: if the
    node rejects the query for a field that is unset, the error is raised and
    the transaction keeps every field as it was, also the fields whose
    queries were answered. *)
Theorem fillTransaction_atomic (klaytnCall : KlaytnCall) (this : ChainDataAnchoring) :
  rejected klaytnCall this = true ->
  fill_tx (fillTransaction klaytnCall this) = this
  /\ exists e : error, fill_error (fillTransaction klaytnCall this) = Some e.
Proof.
  unfold rejected, fillTransaction, resolve.
  destruct (isNot (_chainId this)), (isNot (_gasPrice this)), (isNot (_nonce this)),
    (getChainId klaytnCall), (getGasPrice klaytnCall),
    (getTransactionCount klaytnCall (_from this));
    cbn [andb orb]; intros H; try discriminate H;
    cbn [fill_tx fill_error]; eauto.
Qed.

Lemma fillTransaction_atomic_witness :
  fill_tx (fillTransaction rpc_rejecting tx_draft) = tx_draft
  /\ exists e : error, fill_error (fillTransaction rpc_rejecting tx_draft) = Some e.
Proof.
  exact (fillTransaction_atomic rpc_rejecting tx_draft eq_refl).
Defined.

(** what the three assignments store when none of them throws *)
Lemma assignResolved_stores (calls : list RpcCall) (this : ChainDataAnchoring)
    (chainId gasPrice nonce : value) :
  fill_error (assignResolved calls this chainId gasPrice nonce) = None ->
  utils.numberToHex chainId
  = Ok (_chainId (fill_tx (assignResolved calls this chainId gasPrice nonce)))
  /\ utils.numberToHex gasPrice
     = Ok (_gasPrice (fill_tx (assignResolved calls this chainId gasPrice nonce)))
  /\ utils.numberToHex nonce
     = Ok (_nonce (fill_tx (assignResolved calls this chainId gasPrice nonce))).
Proof.
  unfold assignResolved, set_gasPrice, AbstractTransaction.set_number.
  destruct (utils.numberToHex chainId) as [c|e]; [|discriminate].
  destruct (utils.numberToHex gasPrice) as [g|e]; cbn [bind]; [|discriminate].
  destruct (utils.numberToHex nonce) as [n|e]; [|discriminate].
  intros _. cbn. auto.
Qed.

(** X11 -- When [fillTransaction] ends without an error, every field that was
    unset holds the node's answer as [utils.numberToHex] stores it: chainId
    from [getChainId], gasPrice from [getGasPrice], nonce from
    [getTransactionCount] of the sender. *)
Theorem fillTransaction_stores (klaytnCall : KlaytnCall) (this : ChainDataAnchoring) :
  fill_error (fillTransaction klaytnCall this) = None ->
  (isNot (_chainId this) = true ->
   exists v : value,
     getChainId klaytnCall = Ok v
     /\ utils.numberToHex v = Ok (_chainId (fill_tx (fillTransaction klaytnCall this))))
  /\ (isNot (_gasPrice this) = true ->
      exists v : value,
        getGasPrice klaytnCall = Ok v
        /\ utils.numberToHex v = Ok (_gasPrice (fill_tx (fillTransaction klaytnCall this))))
  /\ (isNot (_nonce this) = true ->
      exists v : value,
        getTransactionCount klaytnCall (_from this) = Ok v
        /\ utils.numberToHex v = Ok (_nonce (fill_tx (fillTransaction klaytnCall this)))).
Proof.
  unfold fillTransaction, resolve.
  destruct (isNot (_chainId this)), (isNot (_gasPrice this)), (isNot (_nonce this)),
    (getChainId klaytnCall) as [v1|e1], (getGasPrice klaytnCall) as [v2|e2],
    (getTransactionCount klaytnCall (_from this)) as [v3|e3];
    cbn [fill_error]; intros H; try discriminate H;
    apply assignResolved_stores in H as (H1 & H2 & H3);
    (split; [|split]); intros Hb; try discriminate Hb; eauto.
Qed.

Lemma fillTransaction_stores_witness :
  exists v : value,
    getChainId rpc_sample = Ok v
    /\ utils.numberToHex v = Ok (_chainId (fill_tx (fillTransaction rpc_sample tx_draft))).
Proof.
  exact (proj1 (fillTransaction_stores rpc_sample tx_draft eq_refl) eq_refl).
Defined.

Lemma assignResolved_calls (calls : list RpcCall) (this : ChainDataAnchoring)
    (chainId gasPrice nonce : value) :
  fill_calls (assignResolved calls this chainId gasPrice nonce) = calls.
Proof.
  unfold assignResolved, set_gasPrice, AbstractTransaction.set_number.
  destruct (utils.numberToHex chainId) as [c|e]; [|reflexivity].
  destruct (utils.numberToHex gasPrice) as [g|e]; cbn [bind]; [|reflexivity].
  destruct (utils.numberToHex nonce) as [n|e]; reflexivity.
Qed.

(** the calls of [fillTransaction] are those of the unset fields *)
Lemma fillTransaction_calls (klaytnCall : KlaytnCall) (this : ChainDataAnchoring) :
  fill_calls (fillTransaction klaytnCall this) = callsFor this.
Proof.
  unfold fillTransaction, resolve, callsFor.
  destruct (isNot (_chainId this)), (isNot (_gasPrice this)), (isNot (_nonce this)),
    (getChainId klaytnCall) as [v1|e1], (getGasPrice klaytnCall) as [v2|e2],
    (getTransactionCount klaytnCall (_from this)) as [v3|e3];
    try reflexivity; apply assignResolved_calls.
Qed.

(** X12 -- A decoded transaction has no chainId, which is not on the wire,
    and its integer fields are in their stored form; [fillTransaction] on it
    therefore always starts by asking the node for the chain id. *)
Theorem decode_chainId (toHex : value -> string) (rlpEncoded : string)
    (tx : ChainDataAnchoring) :
  decode toHex rlpEncoded = Ok tx ->
  _chainId tx = None
  /\ storedOk tx = true
  /\ forall klaytnCall : KlaytnCall,
       exists calls : list RpcCall,
         fill_calls (fillTransaction klaytnCall tx) = CallGetChainId :: calls.
Proof.
  intros H. unfold decode in H. apply bind_Ok in H as (o & Ho & H).
  assert (Hc : o_chainId o = Undefined).
  { unfold _decode in Ho. cbv zeta in Ho.
    destruct (startsWith (utils.addHexPrefix rlpEncoded) TxTypeChainDataAnchoring);
      cbn [negb] in Ho; [|discriminate Ho].
    apply bind_Ok in Ho as (decoded & _ & Ho). apply bind_Ok in Ho as (fields & _ & Ho).
    apply bind_Ok in Ho as (nonce & _ & Ho). apply bind_Ok in Ho as (gasPrice & _ & Ho).
    apply bind_Ok in Ho as (gas & _ & Ho). apply Ok_inj in Ho. now subst o. }
  pose proof (new_storedOk toHex (FromObject o) tx H) as Hs.
  apply new_fields in H as (_ & _ & Hn & _). rewrite Hc in Hn.
  cbn [utils.numberToHex] in Hn. apply Ok_inj in Hn.
  split; [now symmetry|]. split; [exact Hs|].
  intros klaytnCall. rewrite fillTransaction_calls. unfold callsFor.
  rewrite <- Hn. cbn [isNot]. eexists. reflexivity.
Qed.

Lemma decode_chainId_witness :
  _chainId (mkTx (Some "0xa94f5374fce5edbc8e2a8697c15331677e6ebf0b") (Some "0x1")
                 (Some "0xf4240") (Some "0x19") None (Some "0xf8a6a0") [sig_sample])
  = None.
Proof.
  exact (proj1 (decode_chainId toHex_sample raw_padded
                  (mkTx (Some "0xa94f5374fce5edbc8e2a8697c15331677e6ebf0b") (Some "0x1")
                        (Some "0xf4240") (Some "0x19") None (Some "0xf8a6a0") [sig_sample])
                  eq_refl)).
Defined.

(** ** The invariant of the class *)

(** X13 -- The stored form of the integer fields is an invariant of the
    class: the constructor ([create], from a field object or a string) and
    [decode] establish it, and the gasPrice setter, the input setter and
    [fillTransaction], whether its calls are answered or rejected, keep it. *)
Theorem storedOk_invariant (toHex : value -> string) :
  (forall (arg : CreateArg) (this : ChainDataAnchoring),
     create toHex arg = Ok this -> storedOk this = true)
  /\ (forall (rlpEncoded : string) (this : ChainDataAnchoring),
        decode toHex rlpEncoded = Ok this -> storedOk this = true)
  /\ (forall (g : value) (this this' : ChainDataAnchoring),
        storedOk this = true -> set_gasPrice g this = Ok this' -> storedOk this' = true)
  /\ (forall (input : value) (this this' : ChainDataAnchoring),
        storedOk this = true -> set_input toHex input this = Ok this' ->
        storedOk this' = true)
  /\ (forall (klaytnCall : KlaytnCall) (this : ChainDataAnchoring),
        storedOk this = true ->
        storedOk (fill_tx (fillTransaction klaytnCall this)) = true).
Proof.
  split; [intros arg this; apply new_storedOk|].
  split.
  { intros rlpEncoded this H. unfold decode in H. apply bind_Ok in H as (o & _ & H).
    exact (new_storedOk toHex (FromObject o) this H). }
  split.
  { intros g this this' Hs H. unfold set_gasPrice in H.
    apply bind_Ok in H as (p & Hp & H). apply Ok_inj in H. subst this'.
    apply numberToHex_stored in Hp. unfold storedOk in *.
    cbn [with_gasPrice _nonce _gas _gasPrice _chainId].
    apply andb_prop in Hs as [Hs Hc]. apply andb_prop in Hs as [Hs _].
    now rewrite Hs, Hp, Hc. }
  split.
  { intros input this this' Hs H. unfold set_input in H.
    destruct (negb (truthy input) || negb (utils.isHex input)); [discriminate H|].
    apply Ok_inj in H. subst this'. exact Hs. }
  intros klaytnCall this. apply fillTransaction_storedOk.
Qed.

(** X14 -- The value of chainId is in neither encoding: changing a chainId
    that is set to another value changes neither the raw transaction nor the
    string that is signed. *)
Theorem encoding_chainId (tx : ChainDataAnchoring) (chainId : option string) :
  isNot (_chainId tx) = false -> isNot chainId = false ->
  getRLPEncoding (with_chainId tx chainId) = getRLPEncoding tx
  /\ getCommonRLPEncodingForSignature (with_chainId tx chainId)
     = getCommonRLPEncodingForSignature tx.
Proof.
  intros H1 H2. apply isNot_false in H1 as (c1 & H1). apply isNot_false in H2 as (c2 & ->).
  destruct tx as [a n g gp c i sigs]. cbn [_chainId] in H1. subst c.
  unfold getRLPEncoding, getCommonRLPEncodingForSignature, validateOptionalValues,
    AbstractTransaction.validateOptionalValues.
  cbn [with_chainId _from _nonce _gas _gasPrice _chainId _input _signatures].
  split; reflexivity.
Qed.

Lemma encoding_chainId_witness :
  getRLPEncoding (with_chainId tx_sample (Some "0x2019")) = getRLPEncoding tx_sample
  /\ getCommonRLPEncodingForSignature (with_chainId tx_sample (Some "0x2019"))
     = getCommonRLPEncodingForSignature tx_sample.
Proof.
  exact (encoding_chainId tx_sample (Some "0x2019") eq_refl eq_refl).
Defined.

Lemma storedOk_invariant_witness :
  storedOk (fill_tx (fillTransaction rpc_sample tx_draft)) = true.
Proof.
  exact (proj2 (proj2 (proj2 (proj2 (storedOk_invariant toHex_sample))))
           rpc_sample tx_draft eq_refl).
Defined.

(** ** Decoding: the string path of the constructor, and trailing items *)

(** X15 -- Constructing from an RLP-encoded string is decoding it: [create]
    on a string and [decode] give the same transaction or the same error. *)
Theorem create_string_decode (toHex : value -> string) (rlpEncoded : string) :
  create toHex (FromString rlpEncoded) = decode toHex rlpEncoded.
Proof.
  unfold create, decode, new.
  destruct (_decode rlpEncoded) as [o|e]; reflexivity.
Qed.

(** the first six items of a list are those of its first six *)
Lemma element_app (fields extra : list value) (i : nat) :
  i < List.length fields -> element (fields ++ extra)%list i = element fields i.
Proof. intros H. unfold element. now apply app_nth1. Qed.

(** X16 -- [decode] reads the first six items of the RLP list and ignores
    what follows: a raw transaction whose list holds more items decodes as
    the raw transaction of its first six items, so distinct raw strings give
    the same transaction. *)
Theorem decode_trailing (toHex : value -> string) (fields extra : list value)
    (e e' : string) :
  List.length fields = 6 ->
  byteTree (Arr (fields ++ extra)%list) = true ->
  RLP.encode (Arr fields) = Ok e ->
  RLP.encode (Arr (fields ++ extra)%list) = Ok e' ->
  (N.of_nat (String.length e) < 2 ^ 64)%N ->
  (N.of_nat (String.length e') < 2 ^ 64)%N ->
  decode toHex (TxTypeChainDataAnchoring ++ sliceFrom 2 e')
  = decode toHex (TxTypeChainDataAnchoring ++ sliceFrom 2 e).
Proof.
  intros Hlen Hb He He' Hl Hl'.
  assert (Hbf : byteTree (Arr fields) = true).
  { cbn [byteTree] in *. rewrite forallb_app in Hb. now apply andb_prop in Hb as [-> _]. }
  pose proof (decode_encode _ _ Hbf He Hl) as Hd.
  pose proof (decode_encode _ _ Hb He' Hl') as Hd'.
  apply encode_inv in He as (d & _ & ->). apply encode_inv in He' as (d' & _ & ->).
  change (sliceFrom 2 ("0x" ++ d)) with d. change (sliceFrom 2 ("0x" ++ d')) with d'.
  unfold decode, _decode. cbv zeta.
  rewrite !addHexPrefix_tag, !startsWith_app, !typeDettached_tag, Hd, Hd'.
  cbn [negb bind iterate].
  rewrite !element_app by lia. reflexivity.
Qed.

Lemma decode_trailing_witness :
  decode toHex_sample
    (TxTypeChainDataAnchoring ++ sliceFrom 2
       "0xf86f820001840000001984000f424094a94f5374fce5edbc8e2a8697c15331677e6ebf0b83f8a6a0f845f84325a0e58b9abf9f33a066b998fccaca711553fb4df425c9234bbb3577f9d9775bb124a02c409a6c5d92277c0a812dd0cc553d7fe1d652a807274c3786df3292cd473e0901c0")
  = decode toHex_sample
      (TxTypeChainDataAnchoring ++ sliceFrom 2
         "0xf86d820001840000001984000f424094a94f5374fce5edbc8e2a8697c15331677e6ebf0b83f8a6a0f845f84325a0e58b9abf9f33a066b998fccaca711553fb4df425c9234bbb3577f9d9775bb124a02c409a6c5d92277c0a812dd0cc553d7fe1d652a807274c3786df3292cd473e09").
Proof.
  exact (decode_trailing toHex_sample fields_padded extra_sample _ _
           eq_refl eq_refl eq_refl eq_refl eq_refl eq_refl).
Defined.

(** * The round trip of constructed transactions *)

Lemma toHex_sample_keeps : toHexKeeps toHex_sample.
Proof. intros s H. cbn [toHex_sample]. now rewrite H. Qed.

Lemma set_from_address (address : value) (f : option string) :
  AbstractTransaction.set_from address = Ok f -> addressField f = true.
Proof.
  destruct address as [| n | a | l]; cbn [AbstractTransaction.set_from]; intros H;
    try discriminate H.
  - apply Ok_inj in H. now subst f.
  - destruct (utils.isAddress (toLowerCase a)) eqn:E; [|discriminate H].
    apply Ok_inj in H. subst f. cbn [addressField].
    now rewrite E, toLowerCase_idem, String.eqb_refl.
Qed.

(** the string path of the constructor goes through a field object *)
Lemma new_object (toHex : value -> string) (arg : CreateArg) (this : ChainDataAnchoring) :
  new toHex arg = Ok this -> exists o, new toHex (FromObject o) = Ok this.
Proof.
  intros H. destruct arg as [s|o]; [|eauto]. unfold new in H.
  apply bind_Ok in H as (o & _ & H). exists o. exact H.
Qed.

(** what the constructor stores as the sender *)
Lemma new_from (toHex : value -> string) (o : CreateTransactionObject)
    (this : ChainDataAnchoring) :
  new toHex (FromObject o) = Ok this ->
  AbstractTransaction.set_from (o_from o) = Ok (_from this).
Proof.
  unfold new. cbn [bind]. intros H.
  apply bind_Ok in H as (this0 & Hb & H).
  unfold AbstractTransaction.new in Hb.
  apply bind_Ok in Hb as (from & Hf & Hb). apply bind_Ok in Hb as (nonce & _ & Hb).
  apply bind_Ok in Hb as (gas & _ & Hb). apply bind_Ok in Hb as (chainId & _ & Hb).
  apply bind_Ok in Hb as (sigs & _ & Hb). apply Ok_inj in Hb. subst this0.
  destruct (truthy (o_input o) && truthy (o_data o)); [discriminate H|].
  apply bind_Ok in H as (this1 & Hi & H).
  unfold set_input in Hi. destruct (_ || _); [discriminate Hi|].
  apply Ok_inj in Hi. subst this1. unfold set_gasPrice in H.
  destruct (o_gasPrice o) eqn:Hgp;
    [ apply Ok_inj in H; subst this; exact Hf
    | apply bind_Ok in H as (p & Hp & H); apply Ok_inj in H; subst this; exact Hf .. ].
Qed.

Lemma assignResolved_untouched (calls : list RpcCall) (this : ChainDataAnchoring)
    (chainId gasPrice nonce : value) :
  _from (fill_tx (assignResolved calls this chainId gasPrice nonce)) = _from this
  /\ _input (fill_tx (assignResolved calls this chainId gasPrice nonce)) = _input this
  /\ _signatures (fill_tx (assignResolved calls this chainId gasPrice nonce))
     = _signatures this.
Proof.
  unfold assignResolved, set_gasPrice, AbstractTransaction.set_number.
  destruct (utils.numberToHex chainId) as [c|e]; [|cbn; auto].
  destruct (utils.numberToHex gasPrice) as [g|e]; cbn [bind]; [|cbn; auto].
  destruct (utils.numberToHex nonce) as [n|e]; cbn; auto.
Qed.

(** [fillTransaction] assigns neither the sender, nor the input, nor the
    signatures *)
Lemma fillTransaction_untouched (klaytnCall : KlaytnCall) (this : ChainDataAnchoring) :
  _from (fill_tx (fillTransaction klaytnCall this)) = _from this
  /\ _input (fill_tx (fillTransaction klaytnCall this)) = _input this
  /\ _signatures (fill_tx (fillTransaction klaytnCall this)) = _signatures this.
Proof.
  unfold fillTransaction, resolve.
  destruct (isNot (_chainId this)), (isNot (_gasPrice this)), (isNot (_nonce this)),
    (getChainId klaytnCall) as [v1|e1], (getGasPrice klaytnCall) as [v2|e2],
    (getTransactionCount klaytnCall (_from this)) as [v3|e3];
    try (cbn [fill_tx]; auto); apply assignResolved_untouched.
Qed.

(** What holds of every state of a transaction object: the integer fields
    are in their stored form, the sender, when set, is a lower-case address,
    and the input is set to a valid hex string. *)
Lemma reachable_inv (toHex : value -> string) (tx : ChainDataAnchoring) :
  toHexContract toHex -> reachable toHex tx ->
  storedOk tx = true /\ addressField (_from tx) = true
  /\ exists s : string, _input tx = Some s /\ utils.isHex (Str s) = true.
Proof.
  intros Hc H.
  induction H as [arg this Hn | g this this' _ IH Hs | input this this' _ IH Hs
                 | klaytnCall this _ IH].
  - split; [exact (new_storedOk toHex arg this Hn)|].
    apply new_object in Hn as (o & Hn).
    split; [exact (set_from_address _ _ (new_from toHex o this Hn))|].
    apply new_input_inv in Hn as (_ & Hh & Hi). eauto.
  - destruct IH as (St & Ad & Hi). unfold set_gasPrice in Hs.
    apply bind_Ok in Hs as (p & Hp & Hs). apply Ok_inj in Hs. subst this'.
    apply numberToHex_stored in Hp. unfold storedOk in *.
    cbn [with_gasPrice _from _nonce _gas _gasPrice _chainId _input].
    apply andb_prop in St as [St Hq]. apply andb_prop in St as [St _].
    rewrite St, Hp, Hq. auto.
  - destruct IH as (St & Ad & _). unfold set_input in Hs.
    destruct (utils.isHex input) eqn:Hh;
      [|rewrite orb_true_r in Hs; discriminate Hs].
    destruct (negb (truthy input) || negb true); [discriminate Hs|].
    apply Ok_inj in Hs. subst this'.
    split; [exact St|]. split; [exact Ad|].
    cbn [with_input _input]. eauto.
  - destruct IH as (St & Ad & Hi).
    destruct (fillTransaction_untouched klaytnCall this) as (-> & -> & _).
    split; [now apply fillTransaction_storedOk | auto].
Qed.

(** A filled state whose input is a byte string and whose signatures are
    triples of byte strings is as [validTx] asks. *)
Lemma reachable_validTx (toHex : value -> string) (tx : ChainDataAnchoring) :
  toHexContract toHex -> toHexKeeps toHex -> reachable toHex tx ->
  filled tx = true -> byteStringField (_input tx) = true ->
  forallb signatureOk (_signatures tx) = true ->
  validTx toHex tx = true.
Proof.
  intros Hc Hk Hr Hf Hb Hs.
  destruct (reachable_inv toHex tx Hc Hr) as (St & Ad & s & Hi & Hh).
  destruct tx as [a n g gp c i sigs].
  unfold filled, storedOk, validTx in *.
  cbn [_from _nonce _gas _gasPrice _chainId _input _signatures] in *.
  subst i.
  destruct n as [n|], g as [g|], gp as [gp|], c as [c|], a as [a|]; try discriminate Hf.
  cbn [quantityField addressField byteStringField] in St, Ad, Hb.
  apply andb_prop in Ad as [Ha Hl].
  assert (Hp : startsWith s "0x" = true).
  { unfold isByteString in Hb. now apply andb_prop in Hb as [-> _]. }
  now rewrite St, Ha, Hl, Hb, Hh, (Hk s Hp), String.eqb_refl, Hs.
Qed.

(** C1, as the code has it -- Round trip.  Let [tx] be a state of a
    transaction object (made by the constructor, the setters and
    [fillTransaction]) that is filled and whose input is a byte string, "0x"
    and an even number of hexadecimal digits, and whose signatures are
    triples of such byte strings.  Then [getRLPEncoding] gives a raw
    transaction, and [decode] of it (a JavaScript string, shorter than 2^64
    characters) gives a transaction whose nonce, gasPrice, gas, from, input
    and signature list, in the same order, are those of [tx].  [utils.toHex]
    is taken to give valid hex for valid hex and to keep a string that
    starts with "0x". *)
Theorem decode_getRLPEncoding (toHex : value -> string) (tx : ChainDataAnchoring) :
  toHexContract toHex -> toHexKeeps toHex ->
  reachable toHex tx ->
  filled tx = true ->
  byteStringField (_input tx) = true ->
  forallb signatureOk (_signatures tx) = true ->
  exists raw : string,
    getRLPEncoding tx = Ok raw
    /\ ((N.of_nat (String.length raw) < 2 ^ 64)%N ->
        exists tx' : ChainDataAnchoring,
          decode toHex raw = Ok tx'
          /\ _nonce tx' = _nonce tx /\ _gasPrice tx' = _gasPrice tx
          /\ _gas tx' = _gas tx /\ _from tx' = _from tx
          /\ _input tx' = _input tx /\ _signatures tx' = _signatures tx).
Proof.
  intros Hc Hk Hr Hf Hb Hs.
  apply roundtrip_validTx. now apply reachable_validTx.
Qed.

Lemma decode_getRLPEncoding_witness :
  exists raw : string,
    getRLPEncoding tx_sample = Ok raw
    /\ ((N.of_nat (String.length raw) < 2 ^ 64)%N ->
        exists tx' : ChainDataAnchoring,
          decode toHex_sample raw = Ok tx'
          /\ _nonce tx' = _nonce tx_sample /\ _gasPrice tx' = _gasPrice tx_sample
          /\ _gas tx' = _gas tx_sample /\ _from tx' = _from tx_sample
          /\ _input tx' = _input tx_sample
          /\ _signatures tx' = _signatures tx_sample).
Proof.
  exact (decode_getRLPEncoding toHex_sample tx_sample
           toHex_sample_contract toHex_sample_keeps
           (reach_new toHex_sample
              (FromObject (obj_signed (Str "0xf8a6a00000000000000000000000000000000000000000000000000000000000000000")))
              tx_sample eq_refl)
           eq_refl eq_refl eq_refl).
Defined.

(** C1, as stated, fails: the constructor accepts the input "0X12" and stores
    it as it is; the transaction is filled and signed, its raw transaction
    holds the byte 12, and [decode] gives a transaction whose input is
    "0x12". *)
Lemma decode_getRLPEncoding_counterexample :
  new toHex_sample (FromObject (obj_signed (Str "0X12"))) = Ok (tx_signed "0X12")
  /\ filled (tx_signed "0X12") = true
  /\ _signatures (tx_signed "0X12") = [sig_sample]
  /\ getRLPEncoding (tx_signed "0X12")
     = Ok "0x48f8658204d219830f424094a94f5374fce5edbc8e2a8697c15331677e6ebf0b12f845f84325a0e58b9abf9f33a066b998fccaca711553fb4df425c9234bbb3577f9d9775bb124a02c409a6c5d92277c0a812dd0cc553d7fe1d652a807274c3786df3292cd473e09"
  /\ decode toHex_sample
       "0x48f8658204d219830f424094a94f5374fce5edbc8e2a8697c15331677e6ebf0b12f845f84325a0e58b9abf9f33a066b998fccaca711553fb4df425c9234bbb3577f9d9775bb124a02c409a6c5d92277c0a812dd0cc553d7fe1d652a807274c3786df3292cd473e09"
     = Ok (with_chainId (tx_signed "0x12") None)
  /\ _input (with_chainId (tx_signed "0x12") None) <> _input (tx_signed "0X12").
Proof.
  repeat split; try reflexivity. discriminate.
Qed.

(** * The string that is signed *)





